(** * extract_keywords: enrichment of a project table with keywords

    A shallow embedding of [extract_keywords.py] and the properties of
    its five parts: the value normaliser [convert_to_float], the cluster
    classifier [get_cluster], the local keyword aggregator
    [get_euroscivoc_keywords], the remote keyword fetcher
    [get_cordis_keywords] and the pipeline of the [__main__] block.

    Conventions of the embedding.
    - A Python [str] is a [string]; a character is a code point below 256.
    - A Python call that can raise returns a [result]: [Returned v] or
      [Raised e].
    - [list(set(..))] has no specified order in Python.  It is modelled
      with a [gset string]; no statement below depends on the order in
      which [elements] lists it.
    - A float is kept as the decimal numeral that [float(..)] read (sign,
      digits, power of ten); the rounding to binary64 is not modelled.
    - The network is a [world]: what each request of a URL meets, and the
      requests made so far. *)

From Stdlib Require Import ZArith Ascii String List Lia Permutation.
From stdpp Require Import base option list strings gmap sets.

Local Open Scope Z_scope.

(** ** Exceptions *)

Inductive exn : Type :=
  | IndexError
  | ValueError
  | KeyError (key : string)
  | NameError (name : string)
  | SystemExit (code : Z).

Inductive result (A : Type) : Type :=
  | Returned (a : A)
  | Raised (e : exn).

Arguments Returned {A} a.
Arguments Raised {A} e.

#[export] Instance result_ret : MRet result := fun A a => Returned a.
#[export] Instance result_bind : MBind result := fun A B f m =>
  match m with
  | Returned a => f a
  | Raised e => Raised e
  end.

(** [try: body except ValueError: handler] *)
Definition try_except_ValueError {A} (body : result A) (handler : result A) : result A :=
  match body with
  | Raised ValueError => handler
  | r => r
  end.

Definition returns {A} (r : result A) : Prop := exists a, r = Returned a.

(** ** Python strings and lists *)

Module PyStr.

(** [s.startswith(p)] *)
Fixpoint startswith (s p : string) {struct p} : bool :=
  match p, s with
  | EmptyString, _ => true
  | String _ _, EmptyString => false
  | String a p', String b s' => if Ascii.eqb a b then startswith s' p' else false
  end.

(** [s.split(sep)] for a separator of one character: one piece more
    than there are separators, the empty string giving [[""]]. *)
Fixpoint split (sep : ascii) (s : string) : list string :=
  match s with
  | EmptyString => [EmptyString]
  | String c s' =>
      if Ascii.eqb c sep then EmptyString :: split sep s'
      else match split sep s' with
           | [] => [String c EmptyString]
           | w :: ws => String c w :: ws
           end
  end.

(** [sep.join(l)] *)
Fixpoint join (sep : string) (l : list string) : string :=
  match l with
  | [] => EmptyString
  | [x] => x
  | x :: l' => x +:+ sep +:+ join sep l'
  end.

(** [s.replace(old, new)] for [old] and [new] of one character. *)
Fixpoint replace (old new : ascii) (s : string) : string :=
  match s with
  | EmptyString => EmptyString
  | String c s' => String (if Ascii.eqb c old then new else c) (replace old new s')
  end.

(** [c.isspace()] on the code points below 256: TAB..CR, FS..US, space,
    NEL and the no-break space. *)
Definition isspace (c : ascii) : bool :=
  let n := N_of_ascii c in
  ((9 <=? n) && (n <=? 13) || (28 <=? n) && (n <=? 32) || (n =? 133) || (n =? 160))%N.

Fixpoint lstrip (s : string) : string :=
  match s with
  | EmptyString => EmptyString
  | String c s' => if isspace c then lstrip s' else s
  end.

Fixpoint rstrip (s : string) : string :=
  match s with
  | EmptyString => EmptyString
  | String c s' =>
      match rstrip s' with
      | EmptyString => if isspace c then EmptyString else String c EmptyString
      | r => String c r
      end
  end.

(** [s.strip()] *)
Definition strip (s : string) : string := rstrip (lstrip s).

(** [l[i]] for any integer index: a negative index counts from the
    end, an index out of range raises [IndexError]. *)
Definition getitem {A} (l : list A) (i : Z) : result A :=
  let n := Z.of_nat (length l) in
  let j := if i <? 0 then i + n else i in
  if (j <? 0) || (n <=? j) then Raised IndexError
  else match l !! Z.to_nat j with
       | Some x => Returned x
       | None => Raised IndexError
       end.

(** The bound of a slice, brought into [0..n] as Python does. *)
Definition slice_bound (n i : Z) : Z :=
  if i <? 0 then Z.max (i + n) 0 else Z.min i n.

(** [l[start:stop]]; it never raises. *)
Definition slice {A} (l : list A) (start stop : Z) : list A :=
  let n := Z.of_nat (length l) in
  let a := slice_bound n start in
  let b := slice_bound n stop in
  take (Z.to_nat (b - a)) (drop (Z.to_nat a) l).

End PyStr.

(** ** The cluster classifier *)

Definition get_cluster (topic : string) : result string :=
  if PyStr.startswith topic "HORIZON" then
    seg ← PyStr.getitem (PyStr.split "-" topic) 1;
    mret ("HORIZON-" +:+ seg)
  else if PyStr.startswith topic "ERC" then
    seg ← PyStr.getitem (PyStr.split "-" topic) 2;
    mret ("ERC-" +:+ seg)
  else if PyStr.startswith topic "EURATOM" then
    mret ("EURATOM-" +:+ PyStr.join "-" (PyStr.slice (PyStr.split "-" topic) 2 (-1)))
  else
    mret topic.

(** ** Floats as [float(..)] reads them *)

Inductive pyfloat : Type :=
  | FNan
  | FInf (neg : bool)
  | FDec (neg : bool) (digits : N) (exp10 : Z).

Module PyFloat.

Definition is_digit (c : ascii) : bool :=
  let n := N_of_ascii c in ((48 <=? n) && (n <=? 57))%N.

Definition digit_value (c : ascii) : N := (N_of_ascii c - 48)%N.

(** C's [Py_ISSPACE]: TAB, LF, VT, FF, CR and the space. *)
Definition c_isspace (c : ascii) : bool :=
  let n := N_of_ascii c in ((9 <=? n) && (n <=? 13) || (n =? 32))%N.

Definition tolower (c : ascii) : ascii :=
  let n := N_of_ascii c in
  if ((65 <=? n) && (n <=? 90))%N then ascii_of_N (n + 32) else c.

(** The string handed to the C parser: a white space character above
    127 becomes a space; any other character from 127 on has no
    decimal value, becomes ["?"] and ends the string. *)
Fixpoint to_ascii (s : string) : string :=
  match s with
  | EmptyString => EmptyString
  | String c s' =>
      if (N_of_ascii c <? 127)%N then String c (to_ascii s')
      else if PyStr.isspace c then String " " (to_ascii s')
      else "?"
  end.

(** Underscores are dropped when each one stands between two digits;
    any other underscore is an error. *)
Fixpoint drop_underscores (prev : ascii) (s : string) : option string :=
  match s with
  | EmptyString => if Ascii.eqb prev "_" then None else Some EmptyString
  | String c s' =>
      if Ascii.eqb c "_" then
        if is_digit prev then drop_underscores c s' else None
      else if Ascii.eqb prev "_" && negb (is_digit c) then None
      else String c <$> drop_underscores c s'
  end.

Fixpoint lstrip (s : string) : string :=
  match s with
  | EmptyString => EmptyString
  | String c s' => if c_isspace c then lstrip s' else s
  end.

Fixpoint rstrip (s : string) : string :=
  match s with
  | EmptyString => EmptyString
  | String c s' =>
      match rstrip s' with
      | EmptyString => if c_isspace c then EmptyString else String c EmptyString
      | r => String c r
      end
  end.

(** The longest prefix of digits, and what follows it. *)
Fixpoint span_digits (s : string) : string * string :=
  match s with
  | EmptyString => (EmptyString, EmptyString)
  | String c s' =>
      if is_digit c then let '(d, r) := span_digits s' in (String c d, r)
      else (EmptyString, s)
  end.

Fixpoint digits_value (acc : N) (s : string) : N :=
  match s with
  | EmptyString => acc
  | String c s' => digits_value (10 * acc + digit_value c)%N s'
  end.

Definition sign (s : string) : bool * string :=
  match s with
  | String "-" s' => (true, s')
  | String "+" s' => (false, s')
  | _ => (false, s)
  end.

(** [[eE][+-]?digits+] then the end of the string, or nothing at all. *)
Definition exponent (s : string) : option Z :=
  match s with
  | EmptyString => Some 0
  | String c s' =>
      if Ascii.eqb (tolower c) "e" then
        let '(neg, s1) := sign s' in
        match span_digits s1 with
        | (String d ds, EmptyString) =>
            let e := Z.of_N (digits_value 0 (String d ds)) in
            Some (if neg then - e else e)
        | _ => None
        end
      else None
  end.

(** [sign? (digits+ (. digits* )? | . digits+) exponent?] *)
Definition decimal (s : string) : option pyfloat :=
  let '(neg, s1) := sign s in
  let '(ip, s2) := span_digits s1 in
  let '(fp, s3) :=
    match s2 with
    | String "." s' => span_digits s'
    | _ => (EmptyString, s2)
    end in
  match ip +:+ fp with
  | EmptyString => None
  | ds =>
      e ← exponent s3;
      Some (FDec neg (digits_value 0 ds) (e - Z.of_nat (String.length fp)))
  end.

Fixpoint lower (s : string) : string :=
  match s with
  | EmptyString => EmptyString
  | String c s' => String (tolower c) (lower s')
  end.

(** [sign? (inf | infinity | nan)], in any case of letters. *)
Definition inf_or_nan (s : string) : option pyfloat :=
  let '(neg, s1) := sign s in
  let l := lower s1 in
  if bool_decide (l = "inf" ∨ l = "infinity") then Some (FInf neg)
  else if bool_decide (l = "nan") then Some FNan
  else None.

(** [float(s)] for a string [s] *)
Definition float (s : string) : result pyfloat :=
  match drop_underscores "000" (to_ascii s) with
  | None => Raised ValueError
  | Some s1 =>
      let body := rstrip (lstrip s1) in
      match decimal body with
      | Some f => Returned f
      | None =>
          match inf_or_nan body with
          | Some f => Returned f
          | None => Raised ValueError
          end
      end
  end.

End PyFloat.

(** ** Python values of a table cell *)

Inductive pyval : Type :=
  | PNone
  | PStr (s : string)
  | PInt (z : Z)
  | PFloat (f : pyfloat).

(** [pd.isna(val)]: [None] and the float nan are missing. *)
Definition isna (val : pyval) : bool :=
  match val with
  | PNone | PFloat FNan => true
  | _ => false
  end.

Module PyInt.

Fixpoint digits (fuel : nat) (n : N) (acc : string) : string :=
  let acc' := String (ascii_of_N (48 + n mod 10)) acc in
  match fuel with
  | O => acc'
  | S fuel' => if (n / 10 =? 0)%N then acc' else digits fuel' (n / 10)%N acc'
  end.

(** [str(z)] for an integer *)
Definition str (z : Z) : string :=
  match z with
  | Z0 => "0"
  | Zpos p => digits (N.to_nat (N.log2 (Npos p))) (Npos p) EmptyString
  | Zneg p => String "-" (digits (N.to_nat (N.log2 (Npos p))) (Npos p) EmptyString)
  end.

End PyInt.

(** [str(f)] of a float.  Python prints the shortest numeral that reads
    back as the same binary64; here the float is the numeral itself, and
    it is printed in exponent form.  [float(..)] reads either one back as
    the same float, and [convert_to_float] sees [str(f)] only through
    [float(..)]. *)
Definition float_str (f : pyfloat) : string :=
  match f with
  | FNan => "nan"
  | FInf neg => if neg then "-inf" else "inf"
  | FDec neg d e =>
      (if neg then "-" else "") +:+ PyInt.str (Z.of_N d) +:+ "e" +:+ PyInt.str e
  end.

(** [str(val)] *)
Definition py_str (val : pyval) : string :=
  match val with
  | PNone => "None"
  | PStr s => s
  | PInt z => PyInt.str z
  | PFloat f => float_str f
  end.

(** ** The value normaliser *)

Definition convert_to_float (val : pyval) : result pyval :=
  if isna val then mret PNone
  else
    try_except_ValueError
      (f ← PyFloat.float (PyStr.replace "," "." (py_str val)); mret (PFloat f))
      (mret val).

(** ** The local keyword aggregator *)

(** A row of the euroSciVoc table. *)
Record keyword_entry : Type := KeywordEntry {
  projectID : string;
  euroSciVocTitle : string
}.

Definition get_euroscivoc_keywords (project_id : string)
    (euroscivoc_df : list keyword_entry) : list string :=
  euroSciVocTitle <$> filter (λ e, projectID e = project_id) euroscivoc_df.

(** [groupby("projectID")["euroSciVocTitle"].apply(list)]: one list per
    identifier, the titles in the order of the table. *)
Definition groupby_projectID (euroscivoc_df : list keyword_entry)
    : gmap string (list string) :=
  foldr (λ e m, <[projectID e := euroSciVocTitle e :: default [] (m !! projectID e)]> m)
        ∅ euroscivoc_df.

(** ** The remote keyword fetcher *)

(** A start tag of the page as the HTML parser hands it over. *)
Record tag : Type := Tag {
  name : string;
  attrs : gmap string string
}.

(** A response: its status and its text, the text being given by the
    tags that [BeautifulSoup(res.text, "html.parser")] finds in it, in the
    order of the document. *)
Record response : Type := Response {
  status_code : Z;
  text : list tag
}.

(** What one call of [requests.get] does. *)
Inductive attempt : Type :=
  | Raises
  | Responds (res : response).

(** The network: what the n-th request of a URL meets, and the URLs
    requested so far, the latest first. *)
Record world : Type := World {
  endpoint : string -> nat -> attempt;
  requests : list string
}.

Definition requests_to (url : string) (w : world) : nat :=
  length (filter (λ u, u = url) (requests w)).

Definition requests_get (url : string) (w : world) : attempt * world :=
  (endpoint w url (requests_to url w),
   {| endpoint := endpoint w; requests := url :: requests w |}).

(** [res.ok]: [raise_for_status] raises for the statuses 400 to 599. *)
Definition ok (res : response) : bool :=
  negb ((400 <=? status_code res) && (status_code res <? 600)).

(** [res = requests.Response(); res.status_code = 408] *)
Definition timeout_response : response :=
  {| status_code := 408; text := [] |}.

(** [try: res = requests.get(url, timeout=10)] and its handler, which
    catches every [Exception]. *)
Definition response_of (a : attempt) : response :=
  match a with
  | Responds res => res
  | Raises => timeout_response
  end.

Definition try_get (url : string) (w : world) : response * world :=
  let '(a, w1) := requests_get url w in (response_of a, w1).

(** [for _ in range(n)] with its [break]; [res] is the variable the loop
    assigns. *)
Fixpoint for_range (n : nat) (url : string) (res : option response) (w : world)
    : option response * world :=
  match n with
  | O => (res, w)
  | S n' =>
      let '(res1, w1) := try_get url w in
      if ok res1 then (Some res1, w1)
      else for_range n' url (Some res1) w1
  end.

(** [soup.find(tag_name, attrs={attr: value})] *)
Definition find (soup : list tag) (tag_name attr value : string) : option tag :=
  List.find (λ t, bool_decide (name t = tag_name ∧ attrs t !! attr = Some value)) soup.

(** The comprehension of line 59, before [set(..)]. *)
Definition keyword_entries (content : string) : list string :=
  PyStr.strip <$>
    filter (λ kw, kw ≠ "" ∧ PyStr.startswith kw "HORIZON" = false)
           (PyStr.split "," content).

Definition keyword_set (content : string) : gset string :=
  list_to_set (keyword_entries content).

(** [list[str] | str] *)
Inductive keywords : Type :=
  | KeywordList (l : list string)
  | Status (s : string).

(** Lines 49 to 61: what is made of the response the loop ended with. *)
Definition read_keywords (res : response) : result keywords :=
  if negb (ok res) then Returned (Status "ERROR")
  else
    match find (text res) "meta" "name" "keywords" with
    | None => Returned (Status "NOT FOUND")
    | Some keywords_soup =>
        match attrs keywords_soup !! "content" with
        | None => Raised (KeyError "content")
        | Some content => Returned (KeywordList (elements (keyword_set content)))
        end
    end.

Definition cordis_url (project_id : string) : string :=
  "https://cordis.europa.eu/project/id/" +:+ project_id.

Definition get_cordis_keywords (project_id : string) (w : world)
    : result keywords * world :=
  let url := cordis_url project_id in
  let '(res, w1) := for_range 3 url None w in
  match res with
  | None => (Raised (NameError "res"), w1)
  | Some res => (read_keywords res, w1)
  end.

(** The number of requests a computation made. *)
Definition attempts_made (before after : world) : nat :=
  length (requests after) - length (requests before).

(** ** The pipeline of the main block *)

(** A row of the project table, with the columns that are kept. *)
Module Project.
Record row : Type := Row {
  id : string;
  topics : string;
  ecMaxContribution : pyval
}.
End Project.

(** A row of the table that is written out. *)
Module Extracted.
Record row : Type := Row {
  id : string;
  topics : string;
  ecMaxContribution : pyval;
  cluster : string;
  euroscivoc_keywords : option (list string);
  cordis_keywords : keywords
}.
End Extracted.

(** The value of [clusters]: the string ["all"] or a list of codes. *)
Inductive cluster_filter : Type :=
  | AllClusters
  | Clusters (codes : list string).

(** [int(c)] for a string of one character. *)
Definition int_of_char (c : ascii) : result Z :=
  if PyFloat.is_digit c then Returned (Z.of_N (PyFloat.digit_value c))
  else Raised ValueError.

(** [parser.error(..)] prints the message and exits with status 2. *)
Definition parser_error {A} : result A := Raised (SystemExit 2).

(** The loop of lines 80 to 87 over the characters of the argument. *)
Fixpoint cluster_codes (arg : string) (clusters : list string) : result (list string) :=
  match arg with
  | EmptyString => mret clusters
  | String c arg' =>
      clusters1 ←
        try_except_ValueError
          (n ← int_of_char c;
           if (n <? 1) || (6 <? n) then Raised ValueError
           else mret (clusters ++ ["CL" +:+ PyInt.str n]))
          parser_error;
      cluster_codes arg' clusters1
  end.

Definition parse_clusters (arg : string) : result cluster_filter :=
  if bool_decide (arg = "all") then mret AllClusters
  else codes ← cluster_codes arg []; mret (Clusters codes).

(** [df[column].apply(f)], stopping at the first exception. *)
Fixpoint apply {A B} (f : A -> result B) (l : list A) : result (list B) :=
  match l with
  | [] => mret []
  | x :: l' => y ← f x; ys ← apply f l'; mret (y :: ys)
  end.

(** [project_df.loc[project_df.cluster.isin(clusters)]] *)
Definition filter_clusters (clusters : cluster_filter)
    (rows : list (Project.row * string)) : list (Project.row * string) :=
  match clusters with
  | AllClusters => rows
  | Clusters codes => filter (λ rc, rc.2 ∈ codes) rows
  end.

Section Pipeline.

(** The fetcher and the state it works on: [get_cordis_keywords] on a
    [world], or a stub put in its place. *)
Context {W : Type}.
Variable fetch : string -> W -> result keywords * W.

Definition normalize (r : Project.row) : result Project.row :=
  c ← convert_to_float (Project.ecMaxContribution r);
  mret (Project.Row (Project.id r) (Project.topics r) c).

Definition classify (r : Project.row) : result (Project.row * string) :=
  c ← get_cluster (Project.topics r);
  mret (r, c).

(** [progress_apply(lambda row: fetch(row.id), axis=1)]: one call per
    row, in the order of the table. *)
Fixpoint fetch_rows (groups : gmap string (list string))
    (rows : list (Project.row * string)) (w : W)
    : result (list Extracted.row) * W :=
  match rows with
  | [] => (Returned [], w)
  | (r, c) :: rows' =>
      match fetch (Project.id r) w with
      | (Raised e, w1) => (Raised e, w1)
      | (Returned k, w1) =>
          let row := Extracted.Row (Project.id r) (Project.topics r)
                       (Project.ecMaxContribution r) c
                       (groups !! Project.id r) k in
          match fetch_rows groups rows' w1 with
          | (Returned out, w2) => (Returned (row :: out), w2)
          | (Raised e, w2) => (Raised e, w2)
          end
      end
  end.

(** Lines 76 to 115: the argument [--clusters], the two tables, and the
    table that is written. *)
Definition main (clusters_arg : string) (project_df : list Project.row)
    (euroscivoc_df : list keyword_entry) (w : W)
    : result (list Extracted.row) * W :=
  match
    clusters ← parse_clusters clusters_arg;
    normalized ← apply normalize project_df;
    classified ← apply classify normalized;
    mret (filter_clusters clusters classified)
  with
  | Raised e => (Raised e, w)
  | Returned rows => fetch_rows (groupby_projectID euroscivoc_df) rows w
  end.

End Pipeline.

(** * Vocabulary of the statements *)

Module Words.
Import PyStr.

(** [c in s] *)
Fixpoint contains (c : ascii) (s : string) : bool :=
  match s with
  | EmptyString => false
  | String a s' => Ascii.eqb a c || contains c s'
  end.

(** The tail of an identifier after one of its segments: nothing, or a
    hyphen and the rest. *)
Definition segment_tail (tail : string) : Prop :=
  tail = "" \/ exists rest, tail = String "-" rest.

(** The cases in which an index of the classifier is out of range. *)
Definition too_short (topic : string) : bool :=
  let n := length (split "-" topic) in
  startswith topic "HORIZON" && (n <? 2)%nat
  || startswith topic "ERC" && (n <? 3)%nat.

(** The specification's words, read strictly: the segments after the second and
    before the second-to-last. *)
Definition between_exclusive (segments : list string) : list string :=
  take (length segments - 4) (drop 2 segments).

(** The specification's words, read inclusively: the second segment, the
    second-to-last, and what lies between them. *)
Definition between_inclusive (segments : list string) : list string :=
  take (length segments - 2) (drop 1 segments).

(** The response that the i-th request from now on leaves in [res]. *)
Definition nth_response (w : world) (url : string) (i : nat) : response :=
  response_of (endpoint w url (requests_to url w + i)%nat).

(** An attempt that the loop takes for failed. *)
Definition failed (a : attempt) : bool := negb (ok (response_of a)).

(** A status of the class 2xx. *)
Definition is_2xx (res : response) : bool :=
  (200 <=? status_code res) && (status_code res <? 300).

(** The world after [k] more requests of [url]. *)
Definition after_requests (k : nat) (url : string) (w : world) : world :=
  {| endpoint := endpoint w; requests := replicate k url ++ requests w |}.

(** The network in which every transport failure is replaced by a
    response with the status 408 and no text. *)
Definition without_exceptions (w : world) : world :=
  {| endpoint := λ url i, Responds (response_of (endpoint w url i));
     requests := requests w |}.

(** A network that answers every request in the same way. *)
Definition always (a : attempt) : world :=
  {| endpoint := λ _ _, a; requests := [] |}.

(** A network whose answers to any URL are those of the list, in this
    order, and a transport failure from then on. *)
Definition scripted (script : list attempt) : world :=
  {| endpoint := λ _ i, default Raises (script !! i); requests := [] |}.

(** A page with the one tag [<meta name="keywords" content=..>]. *)
Definition keywords_page (content : string) : list tag :=
  [Tag "meta" {["name" := "keywords"; "content" := content]}].

(** A stub in the place of the fetcher: it returns the same list for
    every project and leaves the state as it is. *)
Definition stub_fetch {W : Type} (l : list string) (project_id : string) (w : W)
    : result keywords * W :=
  (Returned (KeywordList l), w).

(** Every character of the string is a decimal digit. *)
Fixpoint all_digits (s : string) : bool :=
  match s with
  | EmptyString => true
  | String c s' => PyFloat.is_digit c && all_digits s'
  end.

(** A character that neither [replace(",", ".")] nor the first steps of
    [float(..)] touch: below 127, no comma, no underscore, no space. *)
Definition plain (c : ascii) : bool :=
  (N_of_ascii c <? 127)%N && negb (Ascii.eqb c ",") && negb (Ascii.eqb c "_")
  && negb (PyFloat.c_isspace c).

Fixpoint all_plain (s : string) : bool :=
  match s with
  | EmptyString => true
  | String c s' => plain c && all_plain s'
  end.

(** The string begins with a digit. *)
Definition starts_with_digit (s : string) : bool :=
  match s with
  | EmptyString => false
  | String c _ => PyFloat.is_digit c
  end.

(** How often the character occurs in the string. *)
Fixpoint count (c : ascii) (s : string) : nat :=
  match s with
  | EmptyString => 0
  | String a s' => (if Ascii.eqb a c then 1 else 0) + count c s'
  end.

(** One of the digits 1 to 6. *)
Definition cluster_digit (c : ascii) : bool :=
  let n := N_of_ascii c in ((49 <=? n) && (n <=? 54))%N.

(** The tag is the one [find] looks for: a meta element whose attribute
    "name" is "keywords". *)
Definition keywords_meta (t : tag) : Prop :=
  name t = "meta" /\ attrs t !! "name" = Some "keywords".

(** The columns of an output row that do not come from the fetcher are
    those of the project row [r] with the label [c], and the local
    keywords that [groups] holds for it. *)
Definition local_columns (groups : gmap string (list string))
    (rc : Project.row * string) (o : Extracted.row) : Prop :=
  Extracted.id o = Project.id rc.1 /\
  Extracted.topics o = Project.topics rc.1 /\
  Extracted.ecMaxContribution o = Project.ecMaxContribution rc.1 /\
  Extracted.cluster o = rc.2 /\
  Extracted.euroscivoc_keywords o = groups !! Project.id rc.1.

(** The fraction of a numeral as [PyFloat.decimal] reads it: after a
    point the digits that follow, and nothing when there is no point. *)
Definition fraction (s : string) : string * string :=
  match s with
  | String "." s' => PyFloat.span_digits s'
  | _ => (EmptyString, s)
  end.

(** The string begins with a white space character. *)
Definition starts_with_space (s : string) : bool :=
  match s with
  | EmptyString => false
  | String c _ => PyStr.isspace c
  end.

(** A piece of the content that line 59 keeps. *)
Definition kept_piece (piece : string) : Prop :=
  piece ≠ "" /\ PyStr.startswith piece "HORIZON" = false.

(** The project row [r], normalised and classified, is the pair [rc]. *)
Definition classified_from (r : Project.row) (rc : Project.row * string) : Prop :=
  Project.id rc.1 = Project.id r /\
  Project.topics rc.1 = Project.topics r /\
  convert_to_float (Project.ecMaxContribution r)
  = Returned (Project.ecMaxContribution rc.1) /\
  get_cluster (Project.topics r) = Returned rc.2.

(** The code of a cluster digit: "CL" and the digit. *)
Definition cluster_code (c : ascii) : string := "CL" +:+ String c "".

End Words.

(** * Properties *)

(** ** Strings *)

Module PyStrFacts.
Import PyStr Words.


Lemma startswith_app (p r : string) : startswith (p +:+ r) p = true.
Proof.
  induction p as [|a p IH]; simpl; [done|].
  by rewrite Ascii.eqb_refl.
Qed.

Lemma startswith_inv (s p : string) :
  startswith s p = true -> exists r, s = p +:+ r.
Proof.
  revert s. induction p as [|a p IH]; intros s H; simpl in *.
  - by exists s.
  - destruct s as [|b s]; [done|].
    destruct (Ascii.eqb_spec a b) as [->|]; [|done].
    destruct (IH _ H) as [r ->]. by exists r.
Qed.

Lemma split_not_nil (sep : ascii) (s : string) : split sep s <> [].
Proof.
  induction s as [|c s IH]; simpl; [done|].
  destruct (Ascii.eqb c sep); [done|].
  by destruct (split sep s).
Qed.

Lemma split_length_pos (sep : ascii) (s : string) : (1 <= length (split sep s))%nat.
Proof.
  pose proof (split_not_nil sep s). destruct (split sep s); simpl; [done | lia].
Qed.

(** A string without the separator is one piece. *)
Lemma split_without (sep : ascii) (s : string) :
  contains sep s = false -> split sep s = [s].
Proof.
  induction s as [|c s IH]; simpl; [done|].
  intros [Hc Hs]%orb_false_iff. rewrite Hc, (IH Hs). done.
Qed.

(** The first piece ends at the first separator. *)
Lemma split_app (sep : ascii) (a b : string) :
  contains sep a = false ->
  split sep (a +:+ String sep b) = a :: split sep b.
Proof.
  induction a as [|c a IH]; simpl.
  - intros _. by rewrite Ascii.eqb_refl.
  - intros [Hc Ha]%orb_false_iff. rewrite Hc, (IH Ha). done.
Qed.

Lemma slice_2_last {A} (l : list A) :
  slice l 2 (-1) = take (length l - 3) (drop 2 l).
Proof.
  unfold slice, slice_bound. simpl.
  destruct l as [|x0 [|x1 [|x2 l]]]; try reflexivity.
  replace (Z.of_nat (length (x0 :: x1 :: x2 :: l))) with (Z.of_nat (length l) + 3)
    by (simpl length; lia).
  replace (Z.to_nat (Z.max (-1 + (Z.of_nat (length l) + 3)) 0
                     - Z.min 2 (Z.of_nat (length l) + 3)))
    with (length l) by lia.
  replace (Z.to_nat (Z.min 2 (Z.of_nat (length l) + 3))) with 2%nat by lia.
  simpl length. f_equal. lia.
Qed.

Lemma getitem_lookup {A} (l : list A) (i : nat) (x : A) :
  l !! i = Some x -> getitem l (Z.of_nat i) = Returned x.
Proof.
  intros H. pose proof (lookup_lt_Some _ _ _ H) as Hlt.
  unfold getitem.
  destruct (Z.ltb_spec (Z.of_nat i) 0) as [?|_]; [lia|].
  destruct (Z.ltb_spec (Z.of_nat i) 0) as [?|_]; [lia|].
  destruct (Z.leb_spec (Z.of_nat (length l)) (Z.of_nat i)) as [?|_]; [lia|].
  simpl. by rewrite Nat2Z.id, H.
Qed.

Lemma getitem_short {A} (l : list A) (i : nat) :
  (length l <= i)%nat -> getitem l (Z.of_nat i) = Raised IndexError.
Proof.
  intros H. unfold getitem.
  destruct (Z.ltb_spec (Z.of_nat i) 0) as [?|_]; [lia|].
  destruct (Z.ltb_spec (Z.of_nat i) 0) as [?|_]; [lia|].
  destruct (Z.leb_spec (Z.of_nat (length l)) (Z.of_nat i)) as [_|?]; [done | lia].
Qed.

End PyStrFacts.

(** ** The cluster classifier *)

Module ClusterFacts.
Import PyStr Words PyStrFacts.

Lemma erc_not_horizon (topic : string) :
  startswith topic "ERC" = true -> startswith topic "HORIZON" = false.
Proof. intros [r ->]%startswith_inv. reflexivity. Qed.

Lemma euratom_not_horizon (topic : string) :
  startswith topic "EURATOM" = true -> startswith topic "HORIZON" = false.
Proof. intros [r ->]%startswith_inv. reflexivity. Qed.

Lemma euratom_not_erc (topic : string) :
  startswith topic "EURATOM" = true -> startswith topic "ERC" = false.
Proof. intros [r ->]%startswith_inv. reflexivity. Qed.

Lemma append_cons (c : ascii) (s t : string) :
  String c s +:+ t = String c (s +:+ t).
Proof. reflexivity. Qed.

Lemma append_nil_r (s : string) : s +:+ "" = s.
Proof.
  induction s as [|c s IH]; [done|].
  by rewrite append_cons, IH.
Qed.


Lemma split_segment (seg tail : string) :
  contains "-" seg = false -> segment_tail tail ->
  exists more, split "-" (seg +:+ tail) = seg :: more.
Proof.
  intros Hseg [-> | [rest ->]].
  - exists []. rewrite append_nil_r. by apply split_without.
  - exists (split "-" rest). by apply split_app.
Qed.


Lemma get_cluster_horizon_segment (topic xx : string) :
  startswith topic "HORIZON" = true ->
  split "-" topic !! 1%nat = Some xx ->
  get_cluster topic = Returned ("HORIZON-" +:+ xx).
Proof.
  intros Hp Hseg. unfold get_cluster. rewrite Hp.
  pose proof (getitem_lookup _ 1 _ Hseg) as Hg.
  change (Z.of_nat 1) with 1 in Hg. by rewrite Hg.
Qed.

Lemma get_cluster_erc_segment (topic yy : string) :
  startswith topic "ERC" = true ->
  split "-" topic !! 2%nat = Some yy ->
  get_cluster topic = Returned ("ERC-" +:+ yy).
Proof.
  intros Hp Hseg. unfold get_cluster.
  rewrite (erc_not_horizon _ Hp), Hp.
  pose proof (getitem_lookup _ 2 _ Hseg) as Hg.
  change (Z.of_nat 2) with 2 in Hg. by rewrite Hg.
Qed.

(** C8. An identifier with the prefix "HORIZON" and at least two segments
    is classified as "HORIZON-" and its second segment, so "HORIZON-xx-..."
    gives "HORIZON-xx"; an identifier with the prefix "ERC" and at least
    three segments is classified as "ERC-" and its third segment, so
    "ERC-xx-yy-..." gives "ERC-yy". *)
Theorem get_cluster_horizon_erc :
  (forall topic xx,
      startswith topic "HORIZON" = true ->
      split "-" topic !! 1%nat = Some xx ->
      get_cluster topic = Returned ("HORIZON-" +:+ xx)) /\
  (forall xx tail,
      contains "-" xx = false -> segment_tail tail ->
      get_cluster ("HORIZON-" +:+ xx +:+ tail) = Returned ("HORIZON-" +:+ xx)) /\
  (forall topic yy,
      startswith topic "ERC" = true ->
      split "-" topic !! 2%nat = Some yy ->
      get_cluster topic = Returned ("ERC-" +:+ yy)) /\
  (forall xx yy tail,
      contains "-" xx = false -> contains "-" yy = false -> segment_tail tail ->
      get_cluster ("ERC-" +:+ xx +:+ "-" +:+ yy +:+ tail) = Returned ("ERC-" +:+ yy)).
Proof.
  split; [exact get_cluster_horizon_segment|].
  split.
  { intros xx tail Hxx Htail.
    apply get_cluster_horizon_segment; [apply (startswith_app "HORIZON")|].
    destruct (split_segment xx tail Hxx Htail) as [more Hsplit].
    change ("HORIZON-" +:+ xx +:+ tail) with ("HORIZON" +:+ String "-" (xx +:+ tail)).
    rewrite split_app by reflexivity. by rewrite Hsplit. }
  split; [exact get_cluster_erc_segment|].
  intros xx yy tail Hxx Hyy Htail.
  apply get_cluster_erc_segment; [apply (startswith_app "ERC")|].
  destruct (split_segment yy tail Hyy Htail) as [more Hsplit].
  change ("ERC-" +:+ xx +:+ "-" +:+ yy +:+ tail)
    with ("ERC" +:+ String "-" (xx +:+ String "-" (yy +:+ tail))).
  rewrite split_app by reflexivity.
  rewrite split_app by done. by rewrite Hsplit.
Qed.

Lemma get_cluster_horizon_erc_witness :
  get_cluster "HORIZON-CL4-2021-01" = Returned "HORIZON-CL4" /\
  get_cluster "HORIZON-CL4" = Returned "HORIZON-CL4" /\
  get_cluster "ERC-2021-STG" = Returned "ERC-STG" /\
  get_cluster "ERC-2021-STG-01" = Returned "ERC-STG".
Proof.
  destruct get_cluster_horizon_erc as (H1 & H2 & H3 & H4).
  split; [apply (H1 "HORIZON-CL4-2021-01" "CL4"); reflexivity|].
  split; [apply (H2 "CL4" ""); [reflexivity | by left]|].
  split; [apply (H3 "ERC-2021-STG" "STG"); reflexivity|].
  apply (H4 "2021" "STG" "-01"); [reflexivity | reflexivity | right; by exists "01"].
Defined.

(** C7, as stated, fails.  "EURATOM-a-b-c" has four segments; its second
    segment is "a" and its second-to-last is "b".  The classifier returns
    "EURATOM-b": neither "EURATOM-" and the segments strictly between the
    two (there are none), nor "EURATOM-" and the segments from the one to
    the other ("a-b"). *)
Lemma get_cluster_euratom_not_between :
  startswith "EURATOM-a-b-c" "EURATOM" = true /\
  split "-" "EURATOM-a-b-c" = ["EURATOM"; "a"; "b"; "c"] /\
  get_cluster "EURATOM-a-b-c" = Returned "EURATOM-b" /\
  get_cluster "EURATOM-a-b-c"
    <> Returned ("EURATOM-" +:+ join "-" (between_exclusive (split "-" "EURATOM-a-b-c"))) /\
  get_cluster "EURATOM-a-b-c"
    <> Returned ("EURATOM-" +:+ join "-" (between_inclusive (split "-" "EURATOM-a-b-c"))).
Proof. repeat split; done. Qed.

(** C7, amended.  An identifier with the prefix "EURATOM" whose segments
    are a first, a second, some middle ones and a last is classified as
    "EURATOM-" and the middle ones joined by hyphens: the segments from
    the third to the second-to-last, of which there is at least one when
    there are four segments. *)
Theorem get_cluster_euratom (topic first second last : string) (middle : list string) :
  startswith topic "EURATOM" = true ->
  split "-" topic = first :: second :: middle ++ [last] ->
  get_cluster topic = Returned ("EURATOM-" +:+ join "-" middle) /\
  ((4 <= length (split "-" topic))%nat -> middle <> []) /\
  (forall i, (i < length middle)%nat -> middle !! i = split "-" topic !! (i + 2)%nat).
Proof.
  intros Hp Hsplit. split; [|split].
  - unfold get_cluster.
    rewrite (euratom_not_horizon _ Hp), (euratom_not_erc _ Hp), Hp.
    rewrite slice_2_last, Hsplit. simpl drop.
    replace (length (first :: second :: middle ++ [last]) - 3)%nat with (length middle)
      by (simpl; rewrite length_app; simpl; lia).
    by rewrite drop_0, take_app_length.
  - rewrite Hsplit. simpl. rewrite length_app. simpl.
    destruct middle; simpl; [lia | done].
  - intros i Hi. rewrite Hsplit.
    replace (i + 2)%nat with (S (S i)) by lia. simpl.
    by rewrite lookup_app_l.
Qed.

Lemma get_cluster_euratom_witness :
  get_cluster "EURATOM-2023-NRT-01-05" = Returned "EURATOM-NRT-01".
Proof.
  apply (get_cluster_euratom "EURATOM-2023-NRT-01-05" "EURATOM" "2023" "05" ["NRT"; "01"]);
    reflexivity.
Defined.

(** C3, as stated, fails: on "HORIZON", which has the prefix "HORIZON" and
    one segment, the classifier raises [IndexError] and returns nothing;
    so it does on "ERC-2021". *)
Lemma get_cluster_not_total :
  get_cluster "HORIZON" = Raised IndexError /\
  ~ returns (get_cluster "HORIZON") /\
  get_cluster "ERC-2021" = Raised IndexError.
Proof.
  split; [reflexivity|]. split; [|reflexivity].
  intros [label H]. discriminate H.
Qed.

Lemma too_short_raises (topic : string) :
  too_short topic = true -> get_cluster topic = Raised IndexError.
Proof.
  unfold too_short, get_cluster.
  destruct (startswith topic "HORIZON") eqn:Hh; cbn [andb orb].
  - intros [Hn|[? _]%andb_true_iff]%orb_true_iff.
    + apply Nat.ltb_lt in Hn.
      pose proof (getitem_short (split "-" topic) 1 ltac:(lia)) as Hg.
      change (Z.of_nat 1) with 1 in Hg. by rewrite Hg.
    + pose proof (erc_not_horizon topic ltac:(done)). congruence.
  - destruct (startswith topic "ERC"); cbn [andb orb]; [|done].
    intros Hn%Nat.ltb_lt.
    pose proof (getitem_short (split "-" topic) 2 ltac:(lia)) as Hg.
    change (Z.of_nat 2) with 2 in Hg. by rewrite Hg.
Qed.

Lemma long_enough_returns (topic : string) :
  too_short topic = false -> returns (get_cluster topic).
Proof.
  unfold too_short, get_cluster, returns.
  destruct (startswith topic "HORIZON") eqn:Hh; cbn [andb orb].
  - intros [Hn _]%orb_false_iff. apply Nat.ltb_ge in Hn.
    destruct (lookup_lt_is_Some_2 (split "-" topic) 1 ltac:(lia)) as [seg Hseg].
    pose proof (getitem_lookup _ 1 _ Hseg) as Hg.
    change (Z.of_nat 1) with 1 in Hg. rewrite Hg. by eexists.
  - destruct (startswith topic "ERC"); cbn [andb orb].
    + intros Hn%Nat.ltb_ge.
      destruct (lookup_lt_is_Some_2 (split "-" topic) 2 ltac:(lia)) as [seg Hseg].
      pose proof (getitem_lookup _ 2 _ Hseg) as Hg.
      change (Z.of_nat 2) with 2 in Hg. rewrite Hg. by eexists.
    + intros _. destruct (startswith topic "EURATOM"); by eexists.
Qed.

(** C3, amended.  The classifier is pure: equal inputs give equal
    outcomes.  It returns a string for every identifier but those with the
    prefix "HORIZON" and fewer than two segments and those with the prefix
    "ERC" and fewer than three; for these it raises [IndexError]. *)
Theorem get_cluster_pure_partial :
  (forall topic topic', topic = topic' -> get_cluster topic = get_cluster topic') /\
  (forall topic,
      if too_short topic then get_cluster topic = Raised IndexError
      else returns (get_cluster topic)).
Proof.
  split; [by intros ?? ->|].
  intros topic. destruct (too_short topic) eqn:H.
  - by apply too_short_raises.
  - by apply long_enough_returns.
Qed.

Lemma get_cluster_pure_partial_witness :
  get_cluster "EURATOM" = get_cluster "EURATOM" /\
  returns (get_cluster "EURATOM") /\
  get_cluster "ERC-2021" = Raised IndexError.
Proof.
  destruct get_cluster_pure_partial as [Hpure Htotal].
  split; [apply (Hpure "EURATOM" "EURATOM"); reflexivity|].
  split; [exact (Htotal "EURATOM") | exact (Htotal "ERC-2021")].
Defined.

End ClusterFacts.

(** ** Numerals *)

Module NumeralFacts.
Import PyFloat Words.

Lemma append_assoc (s t u : string) : (s +:+ t) +:+ u = s +:+ t +:+ u.
Proof.
  induction s as [|c s IH]; [done|].
  by rewrite !ClusterFacts.append_cons, IH.
Qed.

Lemma digit_char (d : N) :
  (d < 10)%N ->
  is_digit (ascii_of_N (48 + d)) = true /\ digit_value (ascii_of_N (48 + d)) = d.
Proof.
  intros Hd. unfold is_digit, digit_value.
  rewrite N_ascii_embedding by lia. split; [|lia].
  apply andb_true_iff. split; apply N.leb_le; lia.
Qed.

Lemma digits_value_shift (s : string) (a : N) :
  digits_value a s
  = (a * 10 ^ N.of_nat (String.length s) + digits_value 0 s)%N.
Proof.
  revert a. induction s as [|c s IH]; intros a; cbn [digits_value String.length].
  - rewrite N.pow_0_r. lia.
  - rewrite (IH (10 * a + digit_value c)%N), (IH (10 * 0 + digit_value c)%N).
    rewrite Nat2N.inj_succ, N.pow_succ_r'. lia.
Qed.

Lemma digits_value_digits (fuel : nat) (n : N) (acc : string) :
  (n < 2 ^ N.of_nat (S fuel))%N ->
  digits_value 0 (PyInt.digits fuel n acc)
  = (n * 10 ^ N.of_nat (String.length acc) + digits_value 0 acc)%N.
Proof.
  assert (Hlast : forall m acc',
             (m < 10)%N ->
             digits_value 0 (String (ascii_of_N (48 + m mod 10)) acc')
             = (m * 10 ^ N.of_nat (String.length acc') + digits_value 0 acc')%N).
  { intros m acc' Hm. cbn [digits_value].
    rewrite N.mod_small by done.
    rewrite (proj2 (digit_char m Hm)), digits_value_shift. lia. }
  revert n acc. induction fuel as [|fuel IH]; intros n acc Hn; cbn [PyInt.digits].
  - apply Hlast. change (2 ^ N.of_nat 1)%N with 2%N in Hn. lia.
  - destruct (N.eqb_spec (n / 10) 0) as [Hq|Hq].
    + apply Hlast. apply N.div_small_iff in Hq; lia.
    + rewrite IH.
      * cbn [digits_value String.length].
        rewrite (proj2 (digit_char (n mod 10) ltac:(apply N.mod_lt; lia))).
        rewrite (digits_value_shift acc), Nat2N.inj_succ, N.pow_succ_r'.
        pose proof (N.div_mod n 10 ltac:(lia)). nia.
      * apply N.Div0.div_lt_upper_bound.
        rewrite (Nat2N.inj_succ (S fuel)), N.pow_succ_r' in Hn. lia.
Qed.

Lemma all_digits_digits (fuel : nat) (n : N) (acc : string) :
  all_digits acc = true -> all_digits (PyInt.digits fuel n acc) = true.
Proof.
  revert n acc. induction fuel as [|fuel IH]; intros n acc Hacc; cbn [PyInt.digits].
  - cbn [all_digits]. by rewrite (proj1 (digit_char (n mod 10) ltac:(apply N.mod_lt; lia))).
  - assert (Hd : all_digits (String (ascii_of_N (48 + n mod 10)) acc) = true).
    { cbn [all_digits].
      by rewrite (proj1 (digit_char (n mod 10) ltac:(apply N.mod_lt; lia))). }
    destruct (n / 10 =? 0)%N; [done | by apply IH].
Qed.

Lemma digits_not_empty (fuel : nat) (n : N) (acc : string) :
  starts_with_digit (PyInt.digits fuel n acc) = true.
Proof.
  revert n acc. induction fuel as [|fuel IH]; intros n acc; cbn [PyInt.digits].
  - apply (proj1 (digit_char (n mod 10) ltac:(apply N.mod_lt; lia))).
  - destruct (n / 10 =? 0)%N; [|apply IH].
    apply (proj1 (digit_char (n mod 10) ltac:(apply N.mod_lt; lia))).
Qed.

(** [str] of a natural number: digits, one at least, and its value. *)
Lemma str_of_N (n : N) :
  all_digits (PyInt.str (Z.of_N n)) = true /\
  starts_with_digit (PyInt.str (Z.of_N n)) = true /\
  digits_value 0 (PyInt.str (Z.of_N n)) = n.
Proof.
  destruct n as [|p]; [done|]. cbn [Z.of_N PyInt.str].
  split; [by apply all_digits_digits|]. split; [apply digits_not_empty|].
  rewrite digits_value_digits; [cbn; lia|].
  rewrite Nat2N.inj_succ, N2Nat.id.
  apply N.log2_spec. lia.
Qed.

Lemma span_digits_app (s t : string) :
  all_digits s = true -> starts_with_digit t = false ->
  span_digits (s +:+ t) = (s, t).
Proof.
  intros Hs Ht. induction s as [|c s IH].
  - change ("" +:+ t) with t. destruct t as [|c t]; [done|].
    cbn [span_digits]. cbn [starts_with_digit] in Ht. by rewrite Ht.
  - cbn [all_digits] in Hs. apply andb_true_iff in Hs as [Hc Hs].
    rewrite ClusterFacts.append_cons. cbn [span_digits]. by rewrite Hc, (IH Hs).
Qed.

Lemma span_digits_all (s : string) :
  all_digits s = true -> span_digits s = (s, "").
Proof.
  intros Hs. rewrite <- (ClusterFacts.append_nil_r s) at 1.
  by apply span_digits_app.
Qed.

Lemma digit_plain (c : ascii) : is_digit c = true -> plain c = true.
Proof. destruct c as [[] [] [] [] [] [] [] []]; by intros [=]. Qed.

Lemma sign_digit (s : string) : starts_with_digit s = true -> sign s = (false, s).
Proof.
  destruct s as [|c s]; [done|]. cbn [starts_with_digit].
  destruct c as [[] [] [] [] [] [] [] []]; by intros [=].
Qed.

Lemma all_digits_plain (s : string) : all_digits s = true -> all_plain s = true.
Proof.
  induction s as [|c s IH]; [done|]. cbn [all_digits all_plain].
  intros [Hc Hs]%andb_true_iff. by rewrite (digit_plain c Hc), (IH Hs).
Qed.

Lemma all_plain_app (s t : string) :
  all_plain (s +:+ t) = all_plain s && all_plain t.
Proof.
  induction s as [|c s IH]; [done|].
  rewrite ClusterFacts.append_cons. cbn [all_plain]. by rewrite IH, andb_assoc.
Qed.

Lemma replace_plain (s : string) :
  all_plain s = true -> PyStr.replace "," "." s = s.
Proof.
  induction s as [|c s IH]; [done|]. cbn [all_plain PyStr.replace].
  intros [Hc Hs]%andb_true_iff. rewrite (IH Hs).
  unfold plain in Hc. destruct (Ascii.eqb c ","); [|done].
  by rewrite andb_false_r in Hc.
Qed.

Lemma to_ascii_plain (s : string) : all_plain s = true -> to_ascii s = s.
Proof.
  induction s as [|c s IH]; [done|]. cbn [all_plain to_ascii].
  intros [Hc Hs]%andb_true_iff. rewrite (IH Hs).
  unfold plain in Hc. destruct (N_of_ascii c <? 127)%N; [done|]. done.
Qed.

Lemma drop_underscores_plain (s : string) (prev : ascii) :
  Ascii.eqb prev "_" = false -> all_plain s = true ->
  drop_underscores prev s = Some s.
Proof.
  revert prev. induction s as [|c s IH]; intros prev Hprev; cbn [all_plain drop_underscores].
  - by rewrite Hprev.
  - intros [Hc Hs]%andb_true_iff.
    assert (Hu : Ascii.eqb c "_" = false).
    { unfold plain in Hc. destruct (Ascii.eqb c "_"); [|done].
      by rewrite andb_false_r in Hc. }
    rewrite Hu, Hprev. cbn [andb]. by rewrite (IH c Hu Hs).
Qed.

Lemma plain_not_space (c : ascii) : plain c = true -> c_isspace c = false.
Proof.
  unfold plain. destruct (c_isspace c); [|done]. by rewrite andb_false_r.
Qed.

Lemma lstrip_plain (s : string) : all_plain s = true -> lstrip s = s.
Proof.
  destruct s as [|c s]; [done|]. cbn [all_plain lstrip].
  intros [Hc _]%andb_true_iff. by rewrite (plain_not_space c Hc).
Qed.

Lemma rstrip_plain (s : string) : all_plain s = true -> rstrip s = s.
Proof.
  induction s as [|c s IH]; [done|]. cbn [all_plain rstrip].
  intros [Hc Hs]%andb_true_iff. rewrite (IH Hs), (plain_not_space c Hc).
  by destruct s.
Qed.

(** On a string of plain characters [float(..)] is the grammar alone. *)
Lemma float_plain (s : string) (f : pyfloat) :
  all_plain s = true -> decimal s = Some f -> float s = Returned f.
Proof.
  intros Hs Hdec. unfold float.
  rewrite (to_ascii_plain s Hs), (drop_underscores_plain s "000" eq_refl Hs).
  by rewrite (lstrip_plain s Hs), (rstrip_plain s Hs), Hdec.
Qed.

Lemma exponent_e (E : string) :
  exponent (String "e" E)
  = let '(neg, s1) := sign E in
    match span_digits s1 with
    | (String d ds, EmptyString) =>
        let e := Z.of_N (digits_value 0 (String d ds)) in
        Some (if neg then - e else e)
    | _ => None
    end.
Proof. reflexivity. Qed.

Lemma exponent_digits (neg : bool) (D : string) :
  all_digits D = true -> starts_with_digit D = true ->
  exponent (String "e" ((if neg then "-" else "") +:+ D))
  = Some (if neg then - Z.of_N (digits_value 0 D) else Z.of_N (digits_value 0 D)).
Proof.
  intros Hall Hstart. rewrite exponent_e.
  assert (Hsign : sign ((if neg then "-" else "") +:+ D) = (neg, D)).
  { destruct neg; [reflexivity|]. by apply sign_digit. }
  rewrite Hsign. cbv beta iota. rewrite (span_digits_all D Hall).
  by destruct D.
Qed.

(** The exponent that [str] printed is read back. *)
Lemma exponent_str (e : Z) : exponent (String "e" (PyInt.str e)) = Some e.
Proof.
  destruct e as [|p|p]; [reflexivity| |];
    destruct (str_of_N (Npos p)) as (Hall & Hstart & Hval); cbn [Z.of_N] in *.
  - pose proof (exponent_digits false _ Hall Hstart) as H.
    rewrite Hval in H. exact H.
  - pose proof (exponent_digits true _ Hall Hstart) as H.
    rewrite Hval in H. exact H.
Qed.

(** A sign, digits, and nothing or an exponent: the numeral is read as
    its sign, the value of its digits and the exponent. *)
Lemma decimal_numeral (neg : bool) (D tail : string) (e : Z) :
  all_digits D = true -> starts_with_digit D = true ->
  (tail = "" /\ e = 0) \/ (exists E, tail = String "e" E /\ exponent tail = Some e) ->
  decimal ((if neg then "-" else "") +:+ D +:+ tail)
  = Some (FDec neg (digits_value 0 D) e).
Proof.
  intros Hall Hstart Htail.
  assert (Hsign : sign ((if neg then "-" else "") +:+ D +:+ tail) = (neg, D +:+ tail)).
  { destruct neg; [reflexivity|]. change ("" +:+ D +:+ tail) with (D +:+ tail).
    apply sign_digit. destruct D as [|d ds]; [done|]. exact Hstart. }
  unfold decimal. rewrite Hsign.
  assert (Hnodigit : starts_with_digit tail = false).
  { by destruct Htail as [[-> _]|(E & -> & _)]. }
  rewrite (span_digits_app D tail Hall Hnodigit).
  destruct Htail as [[-> ->]|(E & -> & Hexp)].
  - rewrite ClusterFacts.append_nil_r.
    destruct D as [|d ds]; [done|]. cbn [span_digits]. simpl exponent. cbn.
    by rewrite Z.sub_0_r.
  - cbv iota beta. cbn [span_digits].
    rewrite ClusterFacts.append_nil_r, Hexp.
    destruct D as [|d ds]; [done|]. cbn. by rewrite Z.sub_0_r.
Qed.


Lemma str_plain (z : Z) : all_plain (PyInt.str z) = true.
Proof.
  destruct z as [|p|p]; [done| |];
    pose proof (all_digits_plain _ (proj1 (str_of_N (Npos p)))) as H;
    cbn [Z.of_N] in H; [done|].
  change (PyInt.str (Z.neg p)) with (String "-" (PyInt.str (Z.pos p))).
  cbn [all_plain]. by rewrite H.
Qed.

(** [float(str(f))] is [f]: what [str] prints of a float reads back as
    the same float. *)
Lemma float_str_float (f : pyfloat) :
  float (PyStr.replace "," "." (float_str f)) = Returned f.
Proof.
  destruct f as [|[]|neg d e]; [reflexivity..|].
  destruct (str_of_N d) as (Hall & Hstart & Hval).
  assert (Hplain : all_plain (float_str (FDec neg d e)) = true).
  { cbn [float_str]. rewrite !all_plain_app, (all_digits_plain _ Hall), str_plain.
    by destruct neg. }
  rewrite replace_plain by done. apply float_plain; [done|].
  cbn [float_str]. rewrite <- Hval at 2.
  apply decimal_numeral; [done..|].
  right. exists (PyInt.str e). split; [done | apply exponent_str].
Qed.

End NumeralFacts.

(** ** The value normaliser *)

Module NormalizerFacts.

Lemma float_raises_ValueError (s : string) :
  (exists f, PyFloat.float s = Returned f) \/ PyFloat.float s = Raised ValueError.
Proof.
  unfold PyFloat.float.
  destruct (PyFloat.drop_underscores _ _) as [s1|]; [|by right].
  destruct (PyFloat.decimal _) as [f|]; [left; by exists f|].
  destruct (PyFloat.inf_or_nan _) as [f|]; [left; by exists f | by right].
Qed.

Lemma convert_to_float_parsed (val : pyval) (f : pyfloat) :
  isna val = false ->
  PyFloat.float (PyStr.replace "," "." (py_str val)) = Returned f ->
  convert_to_float val = Returned (PFloat f).
Proof. intros Hna Hf. unfold convert_to_float. by rewrite Hna, Hf. Qed.

Lemma convert_to_float_unparsed (val : pyval) :
  isna val = false ->
  (forall f, PyFloat.float (PyStr.replace "," "." (py_str val)) <> Returned f) ->
  convert_to_float val = Returned val.
Proof.
  intros Hna Hf. unfold convert_to_float. rewrite Hna.
  destruct (float_raises_ValueError (PyStr.replace "," "." (py_str val))) as [[f H]|H].
  - by destruct (Hf f).
  - by rewrite H.
Qed.

(** C6. The normaliser returns [None] for a missing value; the float
    that the value's string reads as, once its commas are points, when it
    reads as one; and the value itself otherwise.  It never raises: a
    string comes back as a float or as the same string. *)
Theorem convert_to_float_contract :
  (forall val, isna val = true -> convert_to_float val = Returned PNone) /\
  (forall val f,
      isna val = false ->
      PyFloat.float (PyStr.replace "," "." (py_str val)) = Returned f ->
      convert_to_float val = Returned (PFloat f)) /\
  (forall val,
      isna val = false ->
      (forall f, PyFloat.float (PyStr.replace "," "." (py_str val)) <> Returned f) ->
      convert_to_float val = Returned val) /\
  (forall val, returns (convert_to_float val)) /\
  (forall s,
      (exists f, convert_to_float (PStr s) = Returned (PFloat f)) \/
      convert_to_float (PStr s) = Returned (PStr s)).
Proof.
  split; [|split; [|split; [|split]]].
  - intros val Hna. unfold convert_to_float. by rewrite Hna.
  - exact convert_to_float_parsed.
  - exact convert_to_float_unparsed.
  - intros val. unfold returns, convert_to_float.
    destruct (isna val); [by eexists|].
    destruct (float_raises_ValueError (PyStr.replace "," "." (py_str val)))
      as [[f ->]| ->]; by eexists.
  - intros s.
    destruct (float_raises_ValueError (PyStr.replace "," "." (py_str (PStr s))))
      as [[f H]|H].
    + left. exists f. by apply convert_to_float_parsed.
    + right. unfold convert_to_float. simpl isna. cbv iota. by rewrite H.
Qed.

Lemma convert_to_float_contract_witness :
  convert_to_float (PFloat FNan) = Returned PNone /\
  convert_to_float (PStr "1234,56") = Returned (PFloat (FDec false 123456 (-2))) /\
  convert_to_float (PStr "1.234,56") = Returned (PStr "1.234,56").
Proof.
  destruct convert_to_float_contract as (Hna & Hfloat & Hsame & _).
  split; [apply (Hna (PFloat FNan)); reflexivity|].
  split; [apply (Hfloat (PStr "1234,56")); reflexivity|].
  apply (Hsame (PStr "1.234,56")); [reflexivity|].
  intros f H. vm_compute in H. discriminate H.
Defined.


(** A float that is not missing comes back as it is: normalising what
    is normalised changes nothing. *)
Lemma convert_to_float_idempotent (f : pyfloat) :
  isna (PFloat f) = false -> convert_to_float (PFloat f) = Returned (PFloat f).
Proof.
  intros Hna. unfold convert_to_float. rewrite Hna. cbn [py_str].
  by rewrite NumeralFacts.float_str_float.
Qed.

Example convert_to_float_point :
  convert_to_float (PStr "1234.56") = Returned (PFloat (FDec false 123456 (-2))).
Proof. reflexivity. Qed.

Example convert_to_float_int :
  convert_to_float (PInt 150000) = Returned (PFloat (FDec false 150000 0)).
Proof. reflexivity. Qed.

Example convert_to_float_none :
  convert_to_float PNone = Returned PNone.
Proof. reflexivity. Qed.

Example convert_to_float_garbage :
  convert_to_float (PStr "n/a") = Returned (PStr "n/a").
Proof. reflexivity. Qed.

Example convert_to_float_float :
  convert_to_float (PFloat (FDec true 123456 (-2))) = Returned (PFloat (FDec true 123456 (-2))).
Proof. reflexivity. Qed.

End NormalizerFacts.

(** ** The local keyword aggregator *)

Module AggregatorFacts.

Lemma keywords_cons_same (e : keyword_entry) (df : list keyword_entry) :
  get_euroscivoc_keywords (projectID e) (e :: df)
  = euroSciVocTitle e :: get_euroscivoc_keywords (projectID e) df.
Proof.
  unfold get_euroscivoc_keywords. rewrite filter_cons.
  by destruct (decide (projectID e = projectID e)).
Qed.

Lemma keywords_cons_other (project_id : string) (e : keyword_entry)
    (df : list keyword_entry) :
  projectID e <> project_id ->
  get_euroscivoc_keywords project_id (e :: df) = get_euroscivoc_keywords project_id df.
Proof.
  intros Hne. unfold get_euroscivoc_keywords. rewrite filter_cons.
  by destruct (decide (projectID e = project_id)).
Qed.

Lemma keywords_absent (project_id : string) (df : list keyword_entry) :
  (forall e, e ∈ df -> projectID e <> project_id) ->
  get_euroscivoc_keywords project_id df = [].
Proof.
  induction df as [|e df IH]; intros H; [done|].
  rewrite keywords_cons_other by (apply H; left).
  apply IH. intros e' He'. apply H. by right.
Qed.

Lemma groups_cons_others (e : keyword_entry) (df : list keyword_entry)
    (ids : list string) :
  projectID e ∉ ids ->
  (λ project_id, get_euroscivoc_keywords project_id (e :: df)) <$> ids
  = (λ project_id, get_euroscivoc_keywords project_id df) <$> ids.
Proof.
  intros Hnotin. apply list_fmap_ext. intros i project_id Hi.
  apply keywords_cons_other. intros <-.
  apply Hnotin. by eapply list_elem_of_lookup_2.
Qed.

Lemma groups_partition (df : list keyword_entry) (ids : list string) :
  NoDup ids ->
  (forall e, e ∈ df -> projectID e ∈ ids) ->
  concat ((λ project_id, get_euroscivoc_keywords project_id df) <$> ids)
  ≡ₚ euroSciVocTitle <$> df.
Proof.
  intros Hnodup. induction df as [|e df IH]; intros Hids.
  - rewrite (proj2 (concat_nil_Forall _)); [done|].
    apply Forall_fmap, Forall_forall. by intros.
  - destruct (list_elem_of_split ids (projectID e)) as (l1 & l2 & ->);
      [apply Hids; left|].
    apply NoDup_app in Hnodup as (_ & Hl1 & [Hl2 _]%NoDup_cons).
    specialize (IH (λ e' He', Hids e' (list_elem_of_further _ _ _ He'))).
    rewrite fmap_app, fmap_cons, concat_app, concat_cons in IH |- *.
    rewrite keywords_cons_same.
    rewrite !groups_cons_others by (try done; intros Hin; by apply (Hl1 _ Hin); left).
    rewrite fmap_cons, <- IH.
    rewrite <- app_comm_cons. symmetry. apply Permutation_middle.
Qed.

Lemma groupby_lookup (df : list keyword_entry) (project_id : string) :
  groupby_projectID df !! project_id
  = match get_euroscivoc_keywords project_id df with
    | [] => None
    | l => Some l
    end.
Proof.
  induction df as [|e df IH]; [done|].
  unfold groupby_projectID in *. simpl foldr.
  destruct (decide (projectID e = project_id)) as [<-|Hne].
  - rewrite lookup_insert_eq, keywords_cons_same, IH.
    by destruct (get_euroscivoc_keywords (projectID e) df).
  - rewrite lookup_insert_ne, keywords_cons_other by done. exact IH.
Qed.

(** C9. For an identifier that no entry carries the aggregator returns
    the empty list.  The lists returned for the distinct identifiers, put
    together, are the keywords of the whole table as a multiset: no
    keyword is lost and none is counted twice.  The grouping of the main
    block holds the same lists. *)
Theorem get_euroscivoc_keywords_partition (euroscivoc_df : list keyword_entry) :
  (forall project_id,
      (forall e, e ∈ euroscivoc_df -> projectID e <> project_id) ->
      get_euroscivoc_keywords project_id euroscivoc_df = []) /\
  (forall ids,
      NoDup ids ->
      (forall e, e ∈ euroscivoc_df -> projectID e ∈ ids) ->
      concat ((λ project_id, get_euroscivoc_keywords project_id euroscivoc_df) <$> ids)
      ≡ₚ euroSciVocTitle <$> euroscivoc_df) /\
  concat ((λ project_id, get_euroscivoc_keywords project_id euroscivoc_df)
            <$> remove_dups (projectID <$> euroscivoc_df))
  ≡ₚ euroSciVocTitle <$> euroscivoc_df /\
  (forall project_id,
      groupby_projectID euroscivoc_df !! project_id
      = match get_euroscivoc_keywords project_id euroscivoc_df with
        | [] => None
        | l => Some l
        end).
Proof.
  split; [intros project_id; apply keywords_absent|].
  split; [intros ids; apply groups_partition|].
  split; [|apply groupby_lookup].
  apply groups_partition; [apply NoDup_remove_dups|].
  intros e He. apply elem_of_remove_dups, list_elem_of_fmap. by exists e.
Qed.

Lemma get_euroscivoc_keywords_partition_witness :
  get_euroscivoc_keywords "P3" [KeywordEntry "P1" "Climate"; KeywordEntry "P2" "Soil";
                                KeywordEntry "P1" "Water"] = [] /\
  concat ((λ project_id,
             get_euroscivoc_keywords project_id
               [KeywordEntry "P1" "Climate"; KeywordEntry "P2" "Soil";
                KeywordEntry "P1" "Water"]) <$> ["P2"; "P1"])
  ≡ₚ ["Climate"; "Soil"; "Water"].
Proof.
  destruct (get_euroscivoc_keywords_partition
              [KeywordEntry "P1" "Climate"; KeywordEntry "P2" "Soil";
               KeywordEntry "P1" "Water"]) as (Hnone & Hall & _).
  split.
  - apply (Hnone "P3"). intros e He.
    repeat (apply elem_of_cons in He as [-> | He]; [done|]).
    by apply elem_of_nil in He.
  - apply (Hall ["P2"; "P1"]).
    + by apply (bool_decide_unpack _).
    + intros e He.
      repeat (apply elem_of_cons in He as [-> | He]; [by apply (bool_decide_unpack _)|]).
      by apply elem_of_nil in He.
Defined.

End AggregatorFacts.

(** ** The remote keyword fetcher *)

Module FetcherFacts.
Import Words.

Lemma requests_to_after (k : nat) (url : string) (w : world) :
  requests_to url (after_requests k url w) = (requests_to url w + k)%nat.
Proof.
  unfold requests_to, after_requests. simpl.
  induction k as [|k IH]; simpl; [lia|].
  rewrite filter_cons. destruct (decide (url = url)); [|done].
  simpl. rewrite IH. lia.
Qed.

Lemma try_get_after (k : nat) (url : string) (w : world) :
  try_get url (after_requests k url w)
  = (nth_response w url k, after_requests (S k) url w).
Proof.
  unfold try_get, requests_get, nth_response.
  by rewrite requests_to_after.
Qed.

Lemma after_requests_0 (url : string) (w : world) : after_requests 0 url w = w.
Proof. by destruct w. Qed.

Lemma for_range_step (k n : nat) (url : string) (res : option response) (w : world) :
  for_range (S n) url res (after_requests k url w)
  = if ok (nth_response w url k) then
      (Some (nth_response w url k), after_requests (S k) url w)
    else
      for_range n url (Some (nth_response w url k)) (after_requests (S k) url w).
Proof. cbn [for_range]. by rewrite try_get_after. Qed.

(** The loop, attempt by attempt. *)
Lemma for_range_3 (url : string) (w : world) :
  for_range 3 url None w
  = if ok (nth_response w url 0) then
      (Some (nth_response w url 0), after_requests 1 url w)
    else if ok (nth_response w url 1) then
      (Some (nth_response w url 1), after_requests 2 url w)
    else
      (Some (nth_response w url 2), after_requests 3 url w).
Proof.
  rewrite <- (after_requests_0 url w) at 1.
  rewrite !for_range_step. cbn [for_range].
  by destruct (ok (nth_response w url 2)).
Qed.

Lemma attempts_made_after (k : nat) (url : string) (w : world) :
  attempts_made w (after_requests k url w) = k.
Proof.
  unfold attempts_made, after_requests. simpl.
  rewrite length_app, length_replicate. lia.
Qed.

Lemma ok_status (res : response) :
  ok res = true <-> ~ (400 <= status_code res < 600).
Proof.
  unfold ok. rewrite negb_true_iff, andb_false_iff, Z.leb_gt, Z.ltb_ge. lia.
Qed.

Lemma ok_2xx (res : response) : is_2xx res = true -> ok res = true.
Proof.
  unfold is_2xx. intros [H1 H2]%andb_true_iff. apply ok_status. lia.
Qed.

(** What the fetcher does when the first attempt succeeds. *)
Lemma fetch_first (project_id : string) (w : world) :
  ok (nth_response w (cordis_url project_id) 0) = true ->
  get_cordis_keywords project_id w
  = (read_keywords (nth_response w (cordis_url project_id) 0),
     after_requests 1 (cordis_url project_id) w).
Proof. intros H. unfold get_cordis_keywords. by rewrite for_range_3, H. Qed.

Lemma fetch_second (project_id : string) (w : world) :
  ok (nth_response w (cordis_url project_id) 0) = false ->
  ok (nth_response w (cordis_url project_id) 1) = true ->
  get_cordis_keywords project_id w
  = (read_keywords (nth_response w (cordis_url project_id) 1),
     after_requests 2 (cordis_url project_id) w).
Proof. intros H0 H1. unfold get_cordis_keywords. by rewrite for_range_3, H0, H1. Qed.

Lemma fetch_third (project_id : string) (w : world) :
  ok (nth_response w (cordis_url project_id) 0) = false ->
  ok (nth_response w (cordis_url project_id) 1) = false ->
  get_cordis_keywords project_id w
  = (read_keywords (nth_response w (cordis_url project_id) 2),
     after_requests 3 (cordis_url project_id) w).
Proof. intros H0 H1. unfold get_cordis_keywords. by rewrite for_range_3, H0, H1. Qed.

Lemma read_keywords_failed (res : response) :
  ok res = false -> read_keywords res = Returned (Status "ERROR").
Proof. intros H. unfold read_keywords. by rewrite H. Qed.

Lemma read_keywords_no_meta (res : response) :
  ok res = true ->
  find (text res) "meta" "name" "keywords" = None ->
  read_keywords res = Returned (Status "NOT FOUND").
Proof. intros H Hfind. unfold read_keywords. by rewrite H, Hfind. Qed.

Lemma read_keywords_content (res : response) (keywords_soup : tag) (content : string) :
  ok res = true ->
  find (text res) "meta" "name" "keywords" = Some keywords_soup ->
  attrs keywords_soup !! "content" = Some content ->
  read_keywords res = Returned (KeywordList (elements (keyword_set content))).
Proof. intros H Hfind Hc. unfold read_keywords. by rewrite H, Hfind, Hc. Qed.

Lemma read_keywords_no_content (res : response) (keywords_soup : tag) :
  ok res = true ->
  find (text res) "meta" "name" "keywords" = Some keywords_soup ->
  attrs keywords_soup !! "content" = None ->
  read_keywords res = Raised (KeyError "content").
Proof. intros H Hfind Hc. unfold read_keywords. by rewrite H, Hfind, Hc. Qed.

Lemma nth_response_without_exceptions (w : world) (url : string) (i : nat) :
  nth_response (without_exceptions w) url i = nth_response w url i.
Proof. unfold nth_response, without_exceptions, requests_to. simpl. by destruct (endpoint w url _). Qed.

Lemma fetch_without_exceptions (project_id : string) (w : world) :
  (get_cordis_keywords project_id (without_exceptions w)).1
  = (get_cordis_keywords project_id w).1.
Proof.
  unfold get_cordis_keywords. rewrite !for_range_3.
  rewrite !nth_response_without_exceptions.
  destruct (ok (nth_response w _ 0)); [done|].
  by destruct (ok (nth_response w _ 1)).
Qed.

Lemma read_keywords_raises (res : response) (e : exn) :
  read_keywords res = Raised e -> e = KeyError "content" /\ ok res = true.
Proof.
  unfold read_keywords. destruct (ok res); simpl; [|done].
  destruct (find _ _ _ _) as [keywords_soup|]; [|done].
  destruct (attrs keywords_soup !! "content"); [done|].
  by intros [= <-].
Qed.

Lemma fetch_raises (project_id : string) (w : world) (e : exn) :
  (get_cordis_keywords project_id w).1 = Raised e -> e = KeyError "content".
Proof.
  unfold get_cordis_keywords. rewrite for_range_3.
  destruct (ok (nth_response w _ 0)); [by intros [] %read_keywords_raises|].
  destruct (ok (nth_response w _ 1)); by intros [] %read_keywords_raises.
Qed.

(** C4. When two attempts fail and the third succeeds with a keywords
    element that has a content, the fetcher returns the keywords read
    from it.  When three attempts fail it returns "ERROR", after exactly
    three requests.  When the attempt that succeeds has no keywords
    element it returns "NOT FOUND".  An exception of [requests.get] is a
    failed attempt like a response with the status 408: it changes nothing
    in what the fetcher returns, and the fetcher raises nothing but the
    [KeyError] of a keywords element without content. *)
Theorem get_cordis_keywords_retry (project_id : string) (w : world) :
  let url := cordis_url project_id in
  let attempt i := endpoint w url (requests_to url w + i)%nat in
  (forall res keywords_soup content,
      failed (attempt 0%nat) = true -> failed (attempt 1%nat) = true ->
      attempt 2%nat = Responds res -> ok res = true ->
      find (text res) "meta" "name" "keywords" = Some keywords_soup ->
      attrs keywords_soup !! "content" = Some content ->
      get_cordis_keywords project_id w
      = (Returned (KeywordList (elements (keyword_set content))),
         after_requests 3 url w)) /\
  (failed (attempt 0%nat) = true -> failed (attempt 1%nat) = true ->
   failed (attempt 2%nat) = true ->
   (get_cordis_keywords project_id w).1 = Returned (Status "ERROR") /\
   attempts_made w (get_cordis_keywords project_id w).2 = 3%nat) /\
  (forall k res,
      (k < 3)%nat -> (forall i, (i < k)%nat -> failed (attempt i) = true) ->
      attempt k = Responds res -> ok res = true ->
      find (text res) "meta" "name" "keywords" = None ->
      (get_cordis_keywords project_id w).1 = Returned (Status "NOT FOUND")) /\
  failed Raises = true /\
  (get_cordis_keywords project_id (without_exceptions w)).1
  = (get_cordis_keywords project_id w).1 /\
  (forall e, (get_cordis_keywords project_id w).1 = Raised e -> e = KeyError "content").
Proof.
  intros url attempt.
  assert (Hfailed : forall i, failed (attempt i) = true -> ok (nth_response w url i) = false).
  { intros i H. by apply negb_true_iff in H. }
  assert (Hres : forall i res, attempt i = Responds res -> nth_response w url i = res).
  { intros i res H. unfold nth_response. fold (attempt i). by rewrite H. }
  split; [|split; [|split; [|split; [|split]]]].
  - intros res keywords_soup content H0 H1 H2 Hok Hfind Hcontent.
    rewrite fetch_third by auto. fold url. rewrite (Hres _ _ H2).
    by rewrite (read_keywords_content _ _ _ Hok Hfind Hcontent).
  - intros H0 H1 H2. rewrite fetch_third by auto. fold url. simpl.
    split; [apply read_keywords_failed; auto | apply attempts_made_after].
  - intros k res Hk Hbefore Hk_res Hok Hfind.
    assert (Hk_ok : ok (nth_response w url k) = true) by (by rewrite (Hres _ _ Hk_res)).
    destruct k as [|[|[|k]]]; [| | |lia].
    + rewrite fetch_first by done. fold url. rewrite (Hres _ _ Hk_res).
      by apply read_keywords_no_meta.
    + rewrite fetch_second by (auto with lia). fold url. rewrite (Hres _ _ Hk_res).
      by apply read_keywords_no_meta.
    + rewrite fetch_third by (auto with lia). fold url. rewrite (Hres _ _ Hk_res).
      by apply read_keywords_no_meta.
  - reflexivity.
  - apply fetch_without_exceptions.
  - apply fetch_raises.
Qed.

Lemma get_cordis_keywords_retry_witness :
  get_cordis_keywords "101"
    (scripted [Raises; Responds (Response 503 []);
               Responds (Response 200 (keywords_page "soil,water"))])
  = (Returned (KeywordList (elements (keyword_set "soil,water"))),
     after_requests 3 (cordis_url "101")
       (scripted [Raises; Responds (Response 503 []);
                  Responds (Response 200 (keywords_page "soil,water"))])) /\
  ((get_cordis_keywords "101" (always Raises)).1 = Returned (Status "ERROR") /\
   attempts_made (always Raises) (get_cordis_keywords "101" (always Raises)).2 = 3%nat) /\
  (get_cordis_keywords "101" (scripted [Responds (Response 404 []);
                                        Responds (Response 200 [Tag "title" ∅])])).1
  = Returned (Status "NOT FOUND").
Proof.
  split; [|split].
  - apply (proj1 (get_cordis_keywords_retry "101" _)
             (Response 200 (keywords_page "soil,water"))
             (Tag "meta" {["name" := "keywords"; "content" := "soil,water"]})
             "soil,water"); reflexivity.
  - apply (proj1 (proj2 (get_cordis_keywords_retry "101" (always Raises)))); reflexivity.
  - apply (proj1 (proj2 (proj2 (get_cordis_keywords_retry "101" _))) 1%nat
             (Response 200 [Tag "title" ∅])); try reflexivity; [lia|].
    intros i Hi. assert (i = 0%nat) as -> by lia. reflexivity.
Defined.

(** C5, as stated, fails: a response with the status 304 is not of the
    class 2xx, yet the loop stops at it.  On a network that answers 304 to
    every request no attempt meets a 2xx status, and the fetcher makes one
    request, not three. *)
Lemma not_modified_ends_retry :
  (forall i, is_2xx (nth_response (always (Responds (Response 304 []))) (cordis_url "101") i)
             = false) /\
  attempts_made (always (Responds (Response 304 [])))
    (get_cordis_keywords "101" (always (Responds (Response 304 [])))).2 = 1%nat /\
  (get_cordis_keywords "101" (always (Responds (Response 304 [])))).1
  = Returned (Status "NOT FOUND").
Proof. split; [by intros i|]. split; reflexivity. Qed.

(** C5, amended.  The loop stops at the first attempt whose response is
    [ok], and makes all three requests when there is none.  A response is
    [ok] when its status is not one of 400 to 599: so is every status of
    the class 2xx, but also every status below 400.  A status from 400 to
    599 and an exception of [requests.get] are failed attempts. *)
Theorem retry_until_ok (project_id : string) (w : world) :
  let res i := nth_response w (cordis_url project_id) i in
  attempts_made w (get_cordis_keywords project_id w).2
  = (if ok (res 0) then 1 else if ok (res 1) then 2 else 3)%nat /\
  (forall r, ok r = true <-> ~ (400 <= status_code r < 600)) /\
  (forall r, is_2xx r = true -> ok r = true) /\
  (forall a, failed a = true <->
             a = Raises \/ exists r, a = Responds r /\ 400 <= status_code r < 600).
Proof.
  intros res. split; [|split; [exact ok_status|split; [exact ok_2xx|]]].
  - unfold get_cordis_keywords. rewrite for_range_3. fold (res 0%nat) (res 1%nat).
    destruct (ok (res 0%nat)); [apply attempts_made_after|].
    destruct (ok (res 1%nat)); apply attempts_made_after.
  - intros a. unfold failed. rewrite negb_true_iff.
    destruct a as [|r]; simpl.
    + split; [by left | reflexivity].
    + rewrite <- not_true_iff_false, ok_status. split.
      * intros H. right. exists r. split; [done | lia].
      * intros [?|(r' & [= <-] & H)]; [done | lia].
Qed.

Lemma retry_until_ok_witness :
  attempts_made (scripted [Raises; Responds (Response 200 [])])
    (get_cordis_keywords "101" (scripted [Raises; Responds (Response 200 [])])).2 = 2%nat /\
  ok (Response 204 []) = true /\
  failed (Responds (Response 500 [])) = true.
Proof.
  split; [|split].
  - exact (proj1 (retry_until_ok "101" (scripted [Raises; Responds (Response 200 [])]))).
  - apply (proj1 (proj2 (proj2 (retry_until_ok "101" (always Raises))))). reflexivity.
  - apply (proj2 (proj2 (proj2 (retry_until_ok "101" (always Raises))))).
    right. exists (Response 500 []). split; [reflexivity | simpl; lia].
Defined.

(** C10. When the first attempt meets a response of the class 2xx whose
    page has a meta element named "keywords" without the attribute
    "content", the fetcher raises [KeyError]: it returns neither a list
    nor one of the two status strings. *)
Theorem get_cordis_keywords_KeyError (project_id : string) (w : world)
    (res : response) (keywords_soup : tag) :
  endpoint w (cordis_url project_id) (requests_to (cordis_url project_id) w)
  = Responds res ->
  is_2xx res = true ->
  find (text res) "meta" "name" "keywords" = Some keywords_soup ->
  attrs keywords_soup !! "content" = None ->
  (get_cordis_keywords project_id w).1 = Raised (KeyError "content") /\
  ~ returns (get_cordis_keywords project_id w).1.
Proof.
  intros Hres H2xx Hfind Hcontent.
  assert (Hfirst : nth_response w (cordis_url project_id) 0 = res).
  { unfold nth_response. by rewrite Nat.add_0_r, Hres. }
  assert (Hraise : (get_cordis_keywords project_id w).1 = Raised (KeyError "content")).
  { rewrite fetch_first by (rewrite Hfirst; by apply ok_2xx).
    rewrite Hfirst. simpl. apply (read_keywords_no_content _ keywords_soup); auto using ok_2xx. }
  split; [done|]. rewrite Hraise. by intros [k Hk].
Qed.

Lemma get_cordis_keywords_KeyError_witness :
  (get_cordis_keywords "101"
     (always (Responds (Response 200 [Tag "meta" {["name" := "keywords"]}])))).1
  = Raised (KeyError "content") /\
  ~ returns (get_cordis_keywords "101"
     (always (Responds (Response 200 [Tag "meta" {["name" := "keywords"]}])))).1.
Proof.
  apply (get_cordis_keywords_KeyError "101" _
           (Response 200 [Tag "meta" {["name" := "keywords"]}])
           (Tag "meta" {["name" := "keywords"]})); reflexivity.
Defined.

Lemma rstrip_idemp (s : string) : PyStr.rstrip (PyStr.rstrip s) = PyStr.rstrip s.
Proof.
  induction s as [|c s IH]; [done|]. cbn [PyStr.rstrip].
  destruct (PyStr.rstrip s) as [|d r] eqn:Hr.
  - destruct (PyStr.isspace c) eqn:Hc; [done|]. cbn [PyStr.rstrip]. by rewrite Hc.
  - cbn [PyStr.rstrip]. cbn [PyStr.rstrip] in IH.
    destruct (PyStr.rstrip r) as [|d' r'] eqn:Hr'.
    + destruct (PyStr.isspace d); [done|]. by rewrite IH.
    + by rewrite IH.
Qed.

Lemma rstrip_head (c : ascii) (s : string) :
  PyStr.isspace c = false -> exists r, PyStr.rstrip (String c s) = String c r.
Proof.
  intros Hc. cbn [PyStr.rstrip]. rewrite Hc.
  destruct (PyStr.rstrip s); by eexists.
Qed.

Lemma lstrip_head (s : string) :
  PyStr.lstrip s = "" \/
  exists c r, PyStr.lstrip s = String c r /\ PyStr.isspace c = false.
Proof.
  induction s as [|c s IH]; [by left|]. cbn [PyStr.lstrip].
  destruct (PyStr.isspace c) eqn:Hc; [done|]. right. by exists c, s.
Qed.

(** [strip] leaves a stripped string as it is. *)
Lemma strip_idemp (s : string) : PyStr.strip (PyStr.strip s) = PyStr.strip s.
Proof.
  unfold PyStr.strip.
  destruct (lstrip_head s) as [-> | (c & r & -> & Hc)]; [done|].
  destruct (rstrip_head c r Hc) as [r' Hr']. rewrite Hr'.
  cbn [PyStr.lstrip]. rewrite Hc, <- Hr'. apply rstrip_idemp.
Qed.

(** What does hold of every list of keywords: each entry is stripped and
    occurs once. *)
Lemma keyword_list_stripped_once (content : string) :
  NoDup (elements (keyword_set content)) /\
  (forall kw, kw ∈ elements (keyword_set content) -> PyStr.strip kw = kw).
Proof.
  split; [apply NoDup_elements|].
  intros kw Hkw. apply elem_of_elements in Hkw. unfold keyword_set in Hkw.
  apply elem_of_list_to_set in Hkw. unfold keyword_entries in Hkw.
  apply list_elem_of_fmap in Hkw as (kw0 & -> & _). apply strip_idemp.
Qed.

(** C2 at the content "Health, HORIZON-test, AI, Health".  The pieces
    after the first begin with a space, so " HORIZON-test" passes the
    test on the prefix and is stripped afterwards: the list that is
    returned holds "Health", "HORIZON-test" and "AI", not "Health" and "AI"
    alone. *)
Theorem get_cordis_keywords_keeps_horizon (project_id : string) (w : world)
    (res : response) (keywords_soup : tag) :
  endpoint w (cordis_url project_id) (requests_to (cordis_url project_id) w)
  = Responds res ->
  ok res = true ->
  find (text res) "meta" "name" "keywords" = Some keywords_soup ->
  attrs keywords_soup !! "content" = Some "Health, HORIZON-test, AI, Health" ->
  exists l,
    (get_cordis_keywords project_id w).1 = Returned (KeywordList l) /\
    list_to_set l = ({["Health"; "HORIZON-test"; "AI"]} : gset string) /\
    "HORIZON-test" ∈ l /\
    list_to_set l <> ({["Health"; "AI"]} : gset string).
Proof.
  intros Hres Hok Hfind Hcontent.
  assert (Hfirst : nth_response w (cordis_url project_id) 0 = res).
  { unfold nth_response. by rewrite Nat.add_0_r, Hres. }
  exists (elements (keyword_set "Health, HORIZON-test, AI, Health")).
  assert (Hset : keyword_set "Health, HORIZON-test, AI, Health"
                 = ({["Health"; "HORIZON-test"; "AI"]} : gset string)).
  { unfold keyword_set.
    change (keyword_entries "Health, HORIZON-test, AI, Health")
      with ["Health"; "HORIZON-test"; "AI"; "Health"].
    set_solver. }
  split; [|split; [|split]].
  - rewrite fetch_first by (by rewrite Hfirst). rewrite Hfirst. simpl.
    by apply (read_keywords_content _ keywords_soup).
  - by rewrite list_to_set_elements_L.
  - apply elem_of_elements. rewrite Hset. set_solver.
  - rewrite list_to_set_elements_L, Hset. intros Heq.
    assert (Hin : "HORIZON-test" ∈ ({["Health"; "AI"]} : gset string))
      by (rewrite <- Heq; set_solver).
    set_solver.
Qed.

Lemma get_cordis_keywords_keeps_horizon_witness :
  exists l,
    (get_cordis_keywords "101"
       (always (Responds (Response 200
          (keywords_page "Health, HORIZON-test, AI, Health"))))).1
    = Returned (KeywordList l) /\
    list_to_set l = ({["Health"; "HORIZON-test"; "AI"]} : gset string) /\
    "HORIZON-test" ∈ l /\
    list_to_set l <> ({["Health"; "AI"]} : gset string).
Proof.
  apply (get_cordis_keywords_keeps_horizon "101" _
           (Response 200 (keywords_page "Health, HORIZON-test, AI, Health"))
           (Tag "meta" {["name" := "keywords";
                         "content" := "Health, HORIZON-test, AI, Health"]}));
    reflexivity.
Defined.

(** An entry of a single space passes the test [kw != ""] and is stripped
    to the empty string, which the list then holds. *)
Example keyword_set_empty_entry :
  keyword_entries "soil, ,water" = ["soil"; ""; "water"] /\
  "" ∈ elements (keyword_set "soil, ,water").
Proof.
  split; [reflexivity|].
  apply elem_of_elements. unfold keyword_set.
  change (keyword_entries "soil, ,water") with ["soil"; ""; "water"]. set_solver.
Qed.

End FetcherFacts.

(** ** The pipeline *)

Module PipelineFacts.
Import Words.

(** C1, as stated, fails.  The argument "1" of [--clusters] gives the
    filter ["CL1"]; the row is classified as "HORIZON-CL1", which is not a
    member of it, so the row is dropped and the output has no row.  The
    contribution "1.234,56" would not become 1234.56 either: with its comma
    replaced it is "1.234.56", which is no number, and it is kept as it
    is. *)
Lemma main_example_has_no_row :
  parse_clusters "1" = Returned (Clusters ["CL1"]) /\
  main (stub_fetch ["Adaptation"]) "1"
    [Project.Row "P1" "HORIZON-CL1-01-02" (PStr "1.234,56")]
    [KeywordEntry "P1" "Climate"] tt
  = (Returned [], tt) /\
  get_cluster "HORIZON-CL1-01-02" = Returned "HORIZON-CL1" /\
  convert_to_float (PStr "1.234,56") = Returned (PStr "1.234,56").
Proof. repeat split. Qed.

(** C1, amended.  Without a cluster filter ("all"), for the one project
    row (P1, "HORIZON-CL1-01-02", "1.234,56"), the one keyword entry
    (P1, "Climate") and a fetcher that returns ["Adaptation"], the output
    is the one row with the identifier P1, the contribution "1.234,56"
    kept as a string, the cluster "HORIZON-CL1", the local keywords
    ["Climate"] and the remote keywords ["Adaptation"].  With the
    contribution "1234,56" the row holds the float 1234.56. *)
Theorem main_example {W : Type} (w : W) :
  main (stub_fetch ["Adaptation"]) "all"
    [Project.Row "P1" "HORIZON-CL1-01-02" (PStr "1.234,56")]
    [KeywordEntry "P1" "Climate"] w
  = (Returned [Extracted.Row "P1" "HORIZON-CL1-01-02" (PStr "1.234,56")
                 "HORIZON-CL1" (Some ["Climate"]) (KeywordList ["Adaptation"])],
     w) /\
  main (stub_fetch ["Adaptation"]) "all"
    [Project.Row "P1" "HORIZON-CL1-01-02" (PStr "1234,56")]
    [KeywordEntry "P1" "Climate"] w
  = (Returned [Extracted.Row "P1" "HORIZON-CL1-01-02"
                 (PFloat (FDec false 123456 (-2)))
                 "HORIZON-CL1" (Some ["Climate"]) (KeywordList ["Adaptation"])],
     w).
Proof. split; reflexivity. Qed.

End PipelineFacts.

(** * Further properties *)

(** ** Segments *)

Module SegmentFacts.
Import PyStr Words PyStrFacts.

(** Splitting at a separator splits both sides of it. *)
Lemma split_app_sep (sep : ascii) (a b : string) :
  split sep (a +:+ String sep b) = split sep a ++ split sep b.
Proof.
  induction a as [|c a IH].
  - change ("" +:+ String sep b) with (String sep b). cbn [split].
    by rewrite Ascii.eqb_refl.
  - rewrite ClusterFacts.append_cons. cbn [split]. rewrite IH.
    destruct (Ascii.eqb c sep); [done|].
    pose proof (split_not_nil sep a). by destruct (split sep a).
Qed.

Lemma join_split (sep : ascii) (s : string) :
  join (String sep "") (split sep s) = s.
Proof.
  induction s as [|c s IH]; [done|]. cbn [split].
  pose proof (split_not_nil sep s) as Hne.
  destruct (Ascii.eqb_spec c sep) as [->|Hc].
  - destruct (split sep s) as [|w ws]; [done|].
    cbn [join]. cbn [join] in IH. by rewrite IH.
  - destruct (split sep s) as [|w ws]; [done|].
    cbn [join] in *. destruct ws as [|w' ws]; [by rewrite IH|].
    by rewrite ClusterFacts.append_cons, IH.
Qed.

Lemma split_pieces (sep : ascii) (s piece : string) :
  piece ∈ split sep s -> contains sep piece = false.
Proof.
  revert piece. induction s as [|c s IH]; intros piece; cbn [split].
  - by intros ->%list_elem_of_singleton.
  - destruct (Ascii.eqb c sep) eqn:Hc.
    + intros [->|H]%elem_of_cons; [done | by apply IH].
    + pose proof (split_not_nil sep s) as Hne.
      destruct (split sep s) as [|w ws]; [done|].
      intros [->|H]%elem_of_cons.
      * cbn [contains]. rewrite Hc. apply IH. by left.
      * apply IH. by right.
Qed.

End SegmentFacts.

(** ** The cluster classifier, further *)

Module ClusterMore.
Import PyStr Words PyStrFacts SegmentFacts.

Lemma getitem_Returned {A} (l : list A) (i : nat) (x : A) :
  getitem l (Z.of_nat i) = Returned x -> l !! i = Some x.
Proof.
  destruct (l !! i) as [y|] eqn:Hl.
  - rewrite (getitem_lookup l i y Hl). by intros [= ->].
  - apply lookup_ge_None in Hl. by rewrite (getitem_short l i Hl).
Qed.

Lemma split_prefix_segment (prefix seg : string) :
  contains "-" prefix = false -> contains "-" seg = false ->
  split "-" (prefix +:+ String "-" seg) = [prefix; seg].
Proof.
  intros Hp Hs. by rewrite split_app_sep, !split_without.
Qed.

(** A label made by the rule for "HORIZON" is classified as itself; a
    label made by the rule for "ERC" has two segments only, and classifying
    it raises [IndexError]. *)
Theorem get_cluster_of_label (topic label : string) :
  get_cluster topic = Returned label ->
  (startswith topic "HORIZON" = true -> get_cluster label = Returned label) /\
  (startswith topic "ERC" = true -> get_cluster label = Raised IndexError).
Proof.
  intros Hlabel. split; intros Hp.
  - unfold get_cluster in Hlabel. rewrite Hp in Hlabel.
    destruct (getitem (split "-" topic) 1) as [seg|e] eqn:Hseg; [|done].
    injection Hlabel as <-.
    apply (getitem_Returned _ 1) in Hseg.
    assert (Hfree : contains "-" seg = false).
    { apply (split_pieces "-" topic). by eapply list_elem_of_lookup_2. }
    apply ClusterFacts.get_cluster_horizon_segment; [apply (startswith_app "HORIZON")|].
    change ("HORIZON-" +:+ seg) with ("HORIZON" +:+ String "-" seg).
    by rewrite split_prefix_segment.
  - unfold get_cluster in Hlabel.
    rewrite (ClusterFacts.erc_not_horizon _ Hp), Hp in Hlabel.
    destruct (getitem (split "-" topic) 2) as [seg|e] eqn:Hseg; [|done].
    injection Hlabel as <-.
    apply (getitem_Returned _ 2) in Hseg.
    assert (Hfree : contains "-" seg = false).
    { apply (split_pieces "-" topic). by eapply list_elem_of_lookup_2. }
    apply ClusterFacts.too_short_raises. unfold too_short.
    change ("ERC-" +:+ seg) with ("ERC" +:+ String "-" seg).
    rewrite split_prefix_segment by done.
    rewrite (startswith_app "ERC"). apply orb_true_r.
Qed.

Lemma get_cluster_of_label_witness :
  get_cluster "HORIZON-CL4" = Returned "HORIZON-CL4" /\
  get_cluster "ERC-STG" = Raised IndexError.
Proof.
  split.
  - apply (proj1 (get_cluster_of_label "HORIZON-CL4-2021-01" "HORIZON-CL4" eq_refl)).
    reflexivity.
  - apply (proj2 (get_cluster_of_label "ERC-2021-STG" "ERC-STG" eq_refl)).
    reflexivity.
Defined.

(** For an identifier with the prefix "EURATOM", the label is "EURATOM-"
    and the text that stands between the second hyphen and the last one,
    whatever that text is. *)
Theorem get_cluster_euratom_text (a b m l : string) :
  startswith (a +:+ String "-" (b +:+ String "-" (m +:+ String "-" l))) "EURATOM" = true ->
  contains "-" a = false -> contains "-" b = false -> contains "-" l = false ->
  get_cluster (a +:+ String "-" (b +:+ String "-" (m +:+ String "-" l)))
  = Returned ("EURATOM-" +:+ m).
Proof.
  intros Hp Ha Hb Hl. unfold get_cluster.
  rewrite (ClusterFacts.euratom_not_horizon _ Hp), (ClusterFacts.euratom_not_erc _ Hp), Hp.
  rewrite slice_2_last, !split_app_sep.
  rewrite (split_without _ a Ha), (split_without _ b Hb), (split_without _ l Hl).
  cbn [app drop]. rewrite drop_0.
  replace (length (a :: b :: split "-" m ++ [l]) - 3)%nat with (length (split "-" m))
    by (cbn [length]; rewrite length_app; cbn [length]; lia).
  by rewrite take_app_length, join_split.
Qed.

Lemma get_cluster_euratom_text_witness :
  get_cluster "EURATOM-2023-NRT-01-05" = Returned "EURATOM-NRT-01".
Proof.
  apply (get_cluster_euratom_text "EURATOM" "2023" "NRT-01" "05"); reflexivity.
Defined.

(** An identifier with the prefix "EURATOM" and fewer than four segments
    is classified as "EURATOM-", with nothing after the hyphen; it does not
    raise. *)
Theorem get_cluster_euratom_short (topic : string) :
  startswith topic "EURATOM" = true ->
  (length (split "-" topic) < 4)%nat ->
  get_cluster topic = Returned "EURATOM-".
Proof.
  intros Hp Hlen. unfold get_cluster.
  rewrite (ClusterFacts.euratom_not_horizon _ Hp), (ClusterFacts.euratom_not_erc _ Hp), Hp.
  rewrite slice_2_last.
  replace (length (split "-" topic) - 3)%nat with 0%nat by lia.
  by rewrite take_0.
Qed.

Lemma get_cluster_euratom_short_witness :
  get_cluster "EURATOM-2023-NRT" = Returned "EURATOM-".
Proof.
  apply (get_cluster_euratom_short "EURATOM-2023-NRT"); [reflexivity | simpl; lia].
Defined.

End ClusterMore.

(** ** The value normaliser, further *)

Module NormalizerMore.
Import Words.

Lemma replace_twice (s : string) :
  PyStr.replace "," "." (PyStr.replace "," "." s) = PyStr.replace "," "." s.
Proof.
  induction s as [|c s IH]; [done|]. cbn [PyStr.replace]. rewrite IH.
  by destruct (Ascii.eqb_spec c ",") as [->|Hc]; [|rewrite (proj2 (Ascii.eqb_neq _ _) Hc)].
Qed.

Lemma convert_to_float_string (s : string) :
  convert_to_float (PStr s)
  = match PyFloat.float (PyStr.replace "," "." s) with
    | Returned f => Returned (PFloat f)
    | Raised _ => Returned (PStr s)
    end.
Proof.
  unfold convert_to_float. cbn [isna py_str].
  by destruct (NormalizerFacts.float_raises_ValueError (PyStr.replace "," "." s))
    as [[f ->]| ->].
Qed.

(** Normalising what the normaliser returned changes nothing, with one
    exception: a value that reads as nan is returned as the float nan, and
    normalising that float gives [None]. *)
Theorem convert_to_float_twice (val v : pyval) :
  convert_to_float val = Returned v ->
  convert_to_float v = Returned (if isna v then PNone else v).
Proof.
  intros Hv. destruct (isna v) eqn:Hna_v.
  - unfold convert_to_float. by rewrite Hna_v.
  - unfold convert_to_float in Hv. destruct (isna val) eqn:Hna.
    + injection Hv as <-. done.
    + destruct (NormalizerFacts.float_raises_ValueError
                  (PyStr.replace "," "." (py_str val))) as [[f Hf]|Hf];
        rewrite Hf in Hv; injection Hv as <-.
      * by apply NormalizerFacts.convert_to_float_idempotent.
      * unfold convert_to_float. by rewrite Hna, Hf.
Qed.

Lemma convert_to_float_twice_witness :
  convert_to_float (PFloat FNan) = Returned PNone /\
  convert_to_float (PFloat (FDec false 15 (-1))) = Returned (PFloat (FDec false 15 (-1))) /\
  convert_to_float (PStr "n/a") = Returned (PStr "n/a").
Proof.
  split; [|split].
  - exact (convert_to_float_twice (PStr "nan") (PFloat FNan) eq_refl).
  - exact (convert_to_float_twice (PStr "1,5") (PFloat (FDec false 15 (-1))) eq_refl).
  - exact (convert_to_float_twice (PStr "n/a") (PStr "n/a") eq_refl).
Defined.

(** A string written with decimal commas and the same string written
    with decimal points are normalised to the same float, when either is
    normalised to a float. *)
Theorem convert_to_float_comma_point (s : string) (f : pyfloat) :
  convert_to_float (PStr s) = Returned (PFloat f) <->
  convert_to_float (PStr (PyStr.replace "," "." s)) = Returned (PFloat f).
Proof.
  rewrite !convert_to_float_string, replace_twice.
  by destruct (PyFloat.float (PyStr.replace "," "." s)).
Qed.

Lemma convert_to_float_comma_point_witness :
  convert_to_float (PStr "1499998.75") = Returned (PFloat (FDec false 149999875 (-2))).
Proof.
  apply (proj1 (convert_to_float_comma_point "1499998,75" (FDec false 149999875 (-2)))).
  reflexivity.
Defined.

End NormalizerMore.

(** ** Points in a numeral *)

Module PointFacts.
Import PyFloat Words.

Lemma count_app (c : ascii) (s t : string) :
  count c (s +:+ t) = (count c s + count c t)%nat.
Proof.
  induction s as [|a s IH]; [done|].
  rewrite ClusterFacts.append_cons. cbn [count]. rewrite IH. lia.
Qed.

Lemma span_digits_parts (s d r : string) :
  span_digits s = (d, r) -> s = d +:+ r /\ all_digits d = true.
Proof.
  revert d r. induction s as [|a s IH]; intros d r; cbn [span_digits].
  - by intros [= <- <-].
  - destruct (is_digit a) eqn:Ha.
    + destruct (span_digits s) as [d' r']. intros [= <- <-].
      destruct (IH d' r' eq_refl) as [-> Hd]. split; [done|].
      cbn [all_digits]. by rewrite Ha, Hd.
    + by intros [= <- <-].
Qed.

Lemma count_digits (c : ascii) (d : string) :
  is_digit c = false -> all_digits d = true -> count c d = 0%nat.
Proof.
  intros Hc. induction d as [|a d IH]; [done|]. cbn [all_digits count].
  intros [Ha Hd]%andb_true_iff. rewrite (IH Hd).
  destruct (Ascii.eqb_spec a c) as [->|]; [congruence | done].
Qed.

Lemma sign_parts (s s1 : string) (neg : bool) :
  sign s = (neg, s1) -> s = s1 \/ s = String "-" s1 \/ s = String "+" s1.
Proof.
  destruct s as [|a s]; [intros [= <- <-]; by left|].
  destruct a as [[] [] [] [] [] [] [] []]; cbn; intros [= <- <-]; auto.
Qed.

Lemma fraction_parts (s fp s3 : string) :
  fraction s = (fp, s3) ->
  (fp = "" /\ s3 = s) \/ (exists s', s = String "." s' /\ span_digits s' = (fp, s3)).
Proof.
  destruct s as [|a s]; [intros [= <- <-]; by left|].
  destruct a as [[] [] [] [] [] [] [] []]; cbn;
    first [ intros [= <- <-]; by left | intros H; right; by eexists ].
Qed.

Lemma tolower_e (a c : ascii) :
  c = "."%char \/ c = "?"%char ->
  Ascii.eqb (tolower a) "e" = true -> Ascii.eqb a c = false.
Proof.
  intros [-> | ->]; destruct a as [[] [] [] [] [] [] [] []]; by intros [=].
Qed.

Lemma tolower_mark (a c : ascii) :
  c = "."%char \/ c = "?"%char -> Ascii.eqb (tolower a) c = Ascii.eqb a c.
Proof. intros [-> | ->]; by destruct a as [[] [] [] [] [] [] [] []]. Qed.

Lemma count_lower (c : ascii) (s : string) :
  c = "."%char \/ c = "?"%char -> count c (lower s) = count c s.
Proof.
  intros Hc. induction s as [|a s IH]; [done|].
  cbn [lower count]. by rewrite IH, (tolower_mark a c Hc).
Qed.

Lemma count_sign (c : ascii) (s s1 : string) (neg : bool) :
  c = "."%char \/ c = "?"%char -> sign s = (neg, s1) -> count c s = count c s1.
Proof.
  intros Hc [-> | [-> | ->]]%sign_parts; [done| |]; by destruct Hc as [-> | ->].
Qed.

Lemma exponent_count (c : ascii) (s : string) (e : Z) :
  c = "."%char \/ c = "?"%char -> exponent s = Some e -> count c s = 0%nat.
Proof.
  intros Hc. destruct s as [|a s]; [done|]. unfold exponent.
  destruct (Ascii.eqb (tolower a) "e") eqn:Ha; [|done].
  destruct (sign s) as [neg s1] eqn:Hsign.
  destruct (span_digits s1) as [d r] eqn:Hspan.
  destruct d as [|d0 ds]; [done|]. destruct r; [|done]. intros _.
  cbn [count]. rewrite (tolower_e a c Hc Ha), (count_sign c s s1 neg Hc Hsign).
  destruct (span_digits_parts _ _ _ Hspan) as [-> Hd].
  rewrite ClusterFacts.append_nil_r.
  apply count_digits; [by destruct Hc as [-> | ->] | done].
Qed.

Lemma decimal_eq (s : string) :
  decimal s
  = let '(neg, s1) := sign s in
    let '(ip, s2) := span_digits s1 in
    let '(fp, s3) := fraction s2 in
    match ip +:+ fp with
    | EmptyString => None
    | ds =>
        e ← exponent s3;
        Some (FDec neg (digits_value 0 ds) (e - Z.of_nat (String.length fp)))
    end.
Proof. reflexivity. Qed.

(** A numeral that [decimal] reads has one point at most, and no
    question mark. *)
Lemma decimal_count (s : string) (f : pyfloat) :
  decimal s = Some f -> (count "." s <= 1)%nat /\ count "?" s = 0%nat.
Proof.
  rewrite decimal_eq.
  destruct (sign s) as [neg s1] eqn:Hsign.
  destruct (span_digits s1) as [ip s2] eqn:Hip.
  destruct (fraction s2) as [fp s3] eqn:Hfp.
  destruct (ip +:+ fp) as [|d0 ds]; [done|].
  destruct (exponent s3) as [e|] eqn:He; [|done]. intros _.
  rewrite (count_sign "." s s1 neg) by (auto || done).
  rewrite (count_sign "?" s s1 neg) by (auto || done).
  destruct (span_digits_parts _ _ _ Hip) as [-> Hipd].
  rewrite !count_app, !(count_digits _ ip) by done.
  destruct (fraction_parts _ _ _ Hfp) as [[-> ->]|(s' & -> & Hspan)].
  - rewrite (exponent_count "." s2 e), (exponent_count "?" s2 e) by auto. lia.
  - destruct (span_digits_parts _ _ _ Hspan) as [-> Hfpd].
    cbn [count]. rewrite !count_app, !(count_digits _ fp) by done.
    rewrite (exponent_count "." s3 e), (exponent_count "?" s3 e) by auto.
    cbn. lia.
Qed.

Lemma inf_or_nan_count (c : ascii) (s : string) (f : pyfloat) :
  c = "."%char \/ c = "?"%char -> inf_or_nan s = Some f -> count c s = 0%nat.
Proof.
  intros Hc. unfold inf_or_nan.
  destruct (sign s) as [neg s1] eqn:Hsign.
  rewrite (count_sign c s s1 neg Hc Hsign), <- (count_lower c s1 Hc).
  repeat case_bool_decide; [| |done].
  - intros _. destruct H as [-> | ->]; by destruct Hc as [-> | ->].
  - intros _. rewrite H0. by destruct Hc as [-> | ->].
Qed.

Lemma count_lstrip (c : ascii) (s : string) :
  c_isspace c = false -> count c (lstrip s) = count c s.
Proof.
  intros Hc. induction s as [|a s IH]; [done|]. cbn [lstrip count].
  destruct (c_isspace a) eqn:Ha; [|done]. rewrite IH.
  destruct (Ascii.eqb_spec a c) as [->|]; [congruence | done].
Qed.

Lemma count_rstrip (c : ascii) (s : string) :
  c_isspace c = false -> count c (rstrip s) = count c s.
Proof.
  intros Hc. induction s as [|a s IH]; [done|]. cbn [rstrip count].
  destruct (rstrip s) as [|b r] eqn:Hr.
  - rewrite <- IH. cbn [count]. destruct (c_isspace a) eqn:Ha; [|cbn [count]; lia].
    destruct (Ascii.eqb_spec a c) as [->|]; [congruence | done].
  - rewrite <- IH. done.
Qed.

Lemma count_drop_underscores (c prev : ascii) (s s1 : string) :
  Ascii.eqb "_" c = false ->
  drop_underscores prev s = Some s1 -> count c s1 = count c s.
Proof.
  intros Hc. revert prev s1.
  induction s as [|a s IH]; intros prev s1; cbn [drop_underscores].
  - destruct (Ascii.eqb prev "_"); [done | by intros [= <-]].
  - destruct (Ascii.eqb_spec a "_") as [->|Ha].
    + destruct (is_digit prev); [|done]. intros H.
      cbn [count]. rewrite Hc. by apply (IH "_"%char).
    + destruct (Ascii.eqb prev "_" && negb (is_digit a)); [done|].
      destruct (drop_underscores a s) as [s'|] eqn:Hs'; [|done].
      intros [= <-]. cbn [count]. by rewrite (IH a s' Hs').
Qed.

Lemma count_to_ascii (s : string) :
  count "?" (to_ascii s) = 0%nat -> count "." (to_ascii s) = count "." s.
Proof.
  induction s as [|a s IH]; [done|]. cbn [to_ascii].
  destruct (N.ltb_spec (N_of_ascii a) 127) as [Ha|Ha].
  - cbn [count]. intros H. rewrite IH; [done | lia].
  - assert (Hdot : Ascii.eqb a "." = false).
    { destruct (Ascii.eqb_spec a ".") as [->|]; [|done]. cbn in Ha. lia. }
    destruct (PyStr.isspace a).
    + cbn [count]. intros H. rewrite Hdot, IH; [done | cbn in H; lia].
    + by intros [=].
Qed.

(** A string that [float(..)] reads has one point at most. *)
Lemma float_count (s : string) (f : pyfloat) :
  float s = Returned f -> (count "." s <= 1)%nat.
Proof.
  unfold float.
  destruct (drop_underscores "000" (to_ascii s)) as [s1|] eqn:Hs1; [|done].
  assert (Hbody : forall c, c = "."%char \/ c = "?"%char ->
                            count c (rstrip (lstrip s1)) = count c (to_ascii s)).
  { intros c Hc.
    rewrite count_rstrip, count_lstrip by (by destruct Hc as [-> | ->]).
    apply (count_drop_underscores c "000"); [by destruct Hc as [-> | ->] | done]. }
  intros Hf.
  assert (Hcount : (count "." (rstrip (lstrip s1)) <= 1)%nat
                   /\ count "?" (rstrip (lstrip s1)) = 0%nat).
  { destruct (decimal (rstrip (lstrip s1))) as [f'|] eqn:Hdec.
    - by apply (decimal_count _ f').
    - destruct (inf_or_nan (rstrip (lstrip s1))) as [f'|] eqn:Hinf; [|done].
      rewrite (inf_or_nan_count "." _ f'), (inf_or_nan_count "?" _ f') by auto. lia. }
  rewrite !Hbody in Hcount by auto.
  rewrite <- count_to_ascii; lia.
Qed.

Lemma count_replace (s : string) :
  count "." (PyStr.replace "," "." s) = (count "." s + count "," s)%nat.
Proof.
  induction s as [|a s IH]; [done|]. cbn [PyStr.replace count]. rewrite IH.
  destruct (Ascii.eqb_spec a ",") as [->|Ha]; [cbn; lia|].
  destruct (Ascii.eqb a "."); lia.
Qed.

End PointFacts.

Module SeparatorFacts.
Import Words.

(** A string with two or more points and commas together, such as an
    amount written with a thousands separator, is never read as a number:
    it is returned as it is. *)
Theorem convert_to_float_two_separators (s : string) :
  (2 <= count "." s + count "," s)%nat ->
  convert_to_float (PStr s) = Returned (PStr s).
Proof.
  intros Hcount. rewrite NormalizerMore.convert_to_float_string.
  destruct (PyFloat.float (PyStr.replace "," "." s)) as [f|e] eqn:Hf; [|done].
  apply PointFacts.float_count in Hf. rewrite PointFacts.count_replace in Hf. lia.
Qed.

Lemma convert_to_float_two_separators_witness :
  convert_to_float (PStr "1.499.998,75") = Returned (PStr "1.499.998,75").
Proof.
  apply (convert_to_float_two_separators "1.499.998,75"). simpl. lia.
Defined.

End SeparatorFacts.

(** ** The local keyword aggregator, further *)

Module AggregatorMore.

Lemma keywords_nil_iff (project_id : string) (df : list keyword_entry) :
  get_euroscivoc_keywords project_id df = [] <->
  forall e, e ∈ df -> projectID e <> project_id.
Proof.
  split; [|apply AggregatorFacts.keywords_absent].
  induction df as [|e df IH]; intros Hnil e' He'; [by apply elem_of_nil in He'|].
  destruct (decide (projectID e = project_id)) as [<-|Hne].
  - by rewrite AggregatorFacts.keywords_cons_same in Hnil.
  - rewrite AggregatorFacts.keywords_cons_other in Hnil by done.
    apply elem_of_cons in He' as [->|He']; [done | by apply IH].
Qed.

(** The keywords of a project come in the order of the table: they are
    a subsequence of its column of titles, and the keywords found in two
    tables put one after the other are those of the first followed by
    those of the second. *)
Theorem get_euroscivoc_keywords_order (project_id : string)
    (df1 df2 : list keyword_entry) :
  get_euroscivoc_keywords project_id (df1 ++ df2)
  = get_euroscivoc_keywords project_id df1 ++ get_euroscivoc_keywords project_id df2 /\
  sublist (get_euroscivoc_keywords project_id df1) (euroSciVocTitle <$> df1).
Proof.
  unfold get_euroscivoc_keywords. split.
  - by rewrite filter_app, fmap_app.
  - apply fmap_sublist, sublist_filter.
Qed.

(** The grouping of the main block holds no empty list.  A project
    without entries is absent from it, so that the merged table has no
    value for it, where [get_euroscivoc_keywords] returns the empty list;
    a project with entries has the list that [get_euroscivoc_keywords]
    returns. *)
Theorem groupby_absent_or_filled (euroscivoc_df : list keyword_entry)
    (project_id : string) :
  (groupby_projectID euroscivoc_df !! project_id = None <->
   forall e, e ∈ euroscivoc_df -> projectID e <> project_id) /\
  (forall l, groupby_projectID euroscivoc_df !! project_id = Some l ->
             l <> [] /\ l = get_euroscivoc_keywords project_id euroscivoc_df).
Proof.
  rewrite AggregatorFacts.groupby_lookup, <- keywords_nil_iff.
  destruct (get_euroscivoc_keywords project_id euroscivoc_df) as [|kw l'].
  - split; [done | by intros l [=]].
  - split; [done | by intros l [= <-]].
Qed.

Lemma groupby_absent_or_filled_witness :
  groupby_projectID [KeywordEntry "P1" "Climate"; KeywordEntry "P2" "Soil"] !! "P3" = None /\
  get_euroscivoc_keywords "P1" [KeywordEntry "P1" "Climate"; KeywordEntry "P2" "Soil"]
  = ["Climate"].
Proof.
  destruct (groupby_absent_or_filled
              [KeywordEntry "P1" "Climate"; KeywordEntry "P2" "Soil"] "P3") as [Habsent _].
  destruct (groupby_absent_or_filled
              [KeywordEntry "P1" "Climate"; KeywordEntry "P2" "Soil"] "P1") as [_ Hfilled].
  split.
  - apply Habsent. intros e He.
    repeat (apply elem_of_cons in He as [-> | He]; [done|]).
    by apply elem_of_nil in He.
  - symmetry. apply (Hfilled ["Climate"]). reflexivity.
Defined.

End AggregatorMore.

(** ** The remote keyword fetcher, further *)

Module FetcherMore.
Import Words FetcherFacts.

(** The world the fetcher leaves, with the number of its requests. *)
Lemma fetch_world (project_id : string) (w : world) :
  exists k, (1 <= k <= 3)%nat /\
    (get_cordis_keywords project_id w).2 = after_requests k (cordis_url project_id) w.
Proof.
  unfold get_cordis_keywords. rewrite for_range_3.
  destruct (ok (nth_response w _ 0)); [exists 1%nat; split; [lia | done]|].
  destruct (ok (nth_response w _ 1)); [exists 2%nat | exists 3%nat]; split; (lia || done).
Qed.

(** One call makes one request at least and three at most, all of them
    to the page of its own project; the requests made before stay in the
    record, and what the network answers is not changed. *)
Theorem get_cordis_keywords_requests (project_id : string) (w : world) :
  exists k, (1 <= k <= 3)%nat /\
    requests (get_cordis_keywords project_id w).2
    = replicate k (cordis_url project_id) ++ requests w /\
    endpoint (get_cordis_keywords project_id w).2 = endpoint w.
Proof.
  destruct (fetch_world project_id w) as (k & Hk & ->). by exists k.
Qed.




Lemma nth_response_same (k i : nat) (url : string) (w : world) :
  nth_response (after_requests k url w) url i = nth_response w url (k + i).
Proof.
  unfold nth_response. rewrite requests_to_after. simpl.
  by rewrite Nat.add_assoc.
Qed.

Lemma fetch_result (project_id : string) (w : world) :
  (get_cordis_keywords project_id w).1
  = read_keywords
      (if ok (nth_response w (cordis_url project_id) 0) then
         nth_response w (cordis_url project_id) 0
       else if ok (nth_response w (cordis_url project_id) 1) then
         nth_response w (cordis_url project_id) 1
       else nth_response w (cordis_url project_id) 2).
Proof.
  unfold get_cordis_keywords. rewrite for_range_3.
  destruct (ok (nth_response w _ 0)); [done|].
  by destruct (ok (nth_response w _ 1)).
Qed.



(** The three attempts are those of one call.  When a page fails three
    times and answers the fourth request, a first call returns "ERROR" and
    a second call, which starts with the fourth request, returns the
    keywords: nothing is kept of the failure. *)
Theorem get_cordis_keywords_again (project_id : string) (w : world)
    (res : response) (keywords_soup : tag) (content : string) :
  (forall i, (i < 3)%nat -> ok (nth_response w (cordis_url project_id) i) = false) ->
  nth_response w (cordis_url project_id) 3 = res ->
  ok res = true ->
  find (text res) "meta" "name" "keywords" = Some keywords_soup ->
  attrs keywords_soup !! "content" = Some content ->
  (get_cordis_keywords project_id w).1 = Returned (Status "ERROR") /\
  (get_cordis_keywords project_id (get_cordis_keywords project_id w).2).1
  = Returned (KeywordList (elements (keyword_set content))) /\
  attempts_made w (get_cordis_keywords project_id (get_cordis_keywords project_id w).2).2
  = 4%nat.
Proof.
  intros Hfail Hres Hok Hfind Hcontent.
  pose proof (Hfail 0%nat ltac:(lia)) as H0.
  pose proof (Hfail 1%nat ltac:(lia)) as H1.
  pose proof (Hfail 2%nat ltac:(lia)) as H2.
  rewrite (fetch_third project_id w H0 H1). cbn [fst snd].
  split; [by apply read_keywords_failed|].
  assert (Hnext : nth_response (after_requests 3 (cordis_url project_id) w)
                    (cordis_url project_id) 0 = res)
    by (by rewrite nth_response_same).
  rewrite fetch_first by (by rewrite Hnext). cbn [fst snd]. rewrite Hnext.
  split; [by apply (read_keywords_content _ keywords_soup)|].
  unfold attempts_made, after_requests. cbn [requests].
  rewrite !length_app, !length_replicate. lia.
Qed.

Lemma get_cordis_keywords_again_witness :
  (get_cordis_keywords "101"
     (scripted [Raises; Raises; Responds (Response 500 []);
                Responds (Response 200 (keywords_page "soil"))])).1
  = Returned (Status "ERROR") /\
  (get_cordis_keywords "101"
     (get_cordis_keywords "101"
        (scripted [Raises; Raises; Responds (Response 500 []);
                   Responds (Response 200 (keywords_page "soil"))])).2).1
  = Returned (KeywordList (elements (keyword_set "soil"))).
Proof.
  pose proof (get_cordis_keywords_again "101"
                (scripted [Raises; Raises; Responds (Response 500 []);
                           Responds (Response 200 (keywords_page "soil"))])
                (Response 200 (keywords_page "soil"))
                (Tag "meta" {["name" := "keywords"; "content" := "soil"]})
                "soil") as H.
  destruct H as (H1 & H2 & _); try reflexivity; [|by split].
  intros i Hi. destruct i as [|[|[|i]]]; [reflexivity..|lia].
Defined.

(** "ERROR" is returned when all three attempts fail, and only then: no
    page, whatever it holds, gives this answer. *)
Theorem get_cordis_keywords_ERROR (project_id : string) (w : world) :
  (get_cordis_keywords project_id w).1 = Returned (Status "ERROR") <->
  forall i, (i < 3)%nat -> ok (nth_response w (cordis_url project_id) i) = false.
Proof.
  assert (Hread : forall res, read_keywords res = Returned (Status "ERROR") -> ok res = false).
  { intros res. unfold read_keywords. destruct (ok res); [|done]. cbn [negb].
    destruct (find _ _ _ _) as [t|]; [|done]. by destruct (attrs t !! "content"). }
  rewrite fetch_result. split.
  - intros H i Hi.
    destruct (ok (nth_response w _ 0)) eqn:H0;
      [apply Hread in H; congruence|].
    destruct (ok (nth_response w _ 1)) eqn:H1;
      [apply Hread in H; congruence|].
    apply Hread in H. destruct i as [|[|[|i]]]; [done..|lia].
  - intros H. rewrite (H 0%nat), (H 1%nat) by lia.
    apply read_keywords_failed, H. lia.
Qed.

Lemma get_cordis_keywords_ERROR_witness :
  (get_cordis_keywords "101" (always (Responds (Response 503 [])))).1
  = Returned (Status "ERROR").
Proof.
  apply (proj2 (get_cordis_keywords_ERROR "101" (always (Responds (Response 503 []))))).
  intros i Hi. reflexivity.
Defined.

End FetcherMore.

(** ** The keywords of a page *)

Module KeywordFacts.
Import Words FetcherFacts.

Lemma find_first (before after : list tag) (t : tag) :
  (forall t', t' ∈ before -> ~ keywords_meta t') -> keywords_meta t ->
  find (before ++ t :: after) "meta" "name" "keywords" = Some t.
Proof.
  intros Hbefore Ht. unfold find. induction before as [|t0 before IH]; simpl.
  - by rewrite bool_decide_eq_true_2.
  - rewrite bool_decide_eq_false_2 by (apply Hbefore; left).
    apply IH. intros t' Ht'. apply Hbefore. by right.
Qed.

Lemma find_none (soup : list tag) :
  find soup "meta" "name" "keywords" = None <->
  forall t, t ∈ soup -> ~ keywords_meta t.
Proof.
  unfold find. induction soup as [|t0 soup IH]; simpl.
  - split; [|done]. intros _ t Ht. by apply elem_of_nil in Ht.
  - case_bool_decide as Ht0.
    + split; [done|]. intros H. destruct (H t0); [by left | done].
    + rewrite IH. split.
      * intros H t [->|Ht]%elem_of_cons; [done | by apply H].
      * intros H t Ht. apply H. by right.
Qed.

(** Of several meta elements named "keywords" the first in the page is
    the one that is read: the elements after it change nothing, not even
    when the first has no content and a later one has. *)
Theorem read_keywords_first_meta (res : response) (before after : list tag) (t : tag) :
  ok res = true ->
  text res = before ++ t :: after ->
  (forall t', t' ∈ before -> ~ keywords_meta t') ->
  keywords_meta t ->
  read_keywords res
  = match attrs t !! "content" with
    | Some content => Returned (KeywordList (elements (keyword_set content)))
    | None => Raised (KeyError "content")
    end.
Proof.
  intros Hok Htext Hbefore Ht. unfold read_keywords.
  by rewrite Hok, Htext, (find_first before after t Hbefore Ht).
Qed.

Lemma read_keywords_first_meta_witness :
  read_keywords
    (Response 200 [Tag "title" ∅; Tag "meta" {["name" := "keywords"]};
                   Tag "meta" {["name" := "keywords"; "content" := "soil"]}])
  = Raised (KeyError "content").
Proof.
  etrans.
  - apply (read_keywords_first_meta
             (Response 200 [Tag "title" ∅; Tag "meta" {["name" := "keywords"]};
                            Tag "meta" {["name" := "keywords"; "content" := "soil"]}])
             [Tag "title" ∅]
             [Tag "meta" {["name" := "keywords"; "content" := "soil"]}]
             (Tag "meta" {["name" := "keywords"]})); [reflexivity..| |by split].
    intros t' ->%list_elem_of_singleton [Hname _]. discriminate Hname.
  - reflexivity.
Defined.

(** A response that is [ok] gives "NOT FOUND" when its page has no meta
    element whose name is exactly "keywords", and only then. *)
Theorem read_keywords_NOT_FOUND (res : response) :
  ok res = true ->
  (read_keywords res = Returned (Status "NOT FOUND") <->
   forall t, t ∈ text res -> ~ keywords_meta t).
Proof.
  intros Hok. rewrite <- find_none. unfold read_keywords. rewrite Hok. cbn [negb].
  destruct (find (text res) "meta" "name" "keywords") as [t|]; [|done].
  split; [|done]. by destruct (attrs t !! "content").
Qed.

Lemma read_keywords_NOT_FOUND_witness :
  read_keywords (Response 200 [Tag "meta" {["name" := "Keywords"; "content" := "soil"]}])
  = Returned (Status "NOT FOUND").
Proof.
  apply (proj2 (read_keywords_NOT_FOUND
                  (Response 200 [Tag "meta" {["name" := "Keywords"; "content" := "soil"]}])
                  eq_refl)).
  intros t ->%list_elem_of_singleton [_ Hname]. discriminate Hname.
Defined.

Lemma elem_of_keyword_set (content kw : string) :
  kw ∈ elements (keyword_set content) <->
  exists piece, piece ∈ PyStr.split "," content /\ kept_piece piece /\ kw = PyStr.strip piece.
Proof.
  unfold keyword_set, keyword_entries.
  rewrite elem_of_elements, elem_of_list_to_set, list_elem_of_fmap.
  split.
  - intros (piece & -> & [Hkept Hin]%list_elem_of_filter). by exists piece.
  - intros (piece & Hin & Hkept & ->). exists piece. split; [done|].
    by apply list_elem_of_filter.
Qed.

(** Whenever the fetcher returns a list, the list comes from the content
    of a keywords element.  It has no entry twice, every entry is
    stripped, and its entries are the stripped forms of the pieces between
    the commas that are not empty and do not begin with "HORIZON" as they
    stand, before stripping. *)
Theorem get_cordis_keywords_list (project_id : string) (w : world) (l : list string) :
  (get_cordis_keywords project_id w).1 = Returned (KeywordList l) ->
  NoDup l /\
  (forall kw, kw ∈ l -> PyStr.strip kw = kw) /\
  exists content,
    forall kw, kw ∈ l <->
      exists piece, piece ∈ PyStr.split "," content /\ kept_piece piece /\
                    kw = PyStr.strip piece.
Proof.
  rewrite FetcherMore.fetch_result. unfold read_keywords.
  destruct (negb (ok _)); [done|].
  destruct (find _ _ _ _) as [t|]; [|done].
  destruct (attrs t !! "content") as [content|]; [|done].
  intros [= <-].
  destruct (keyword_list_stripped_once content) as [Hnodup Hstrip].
  split; [done|]. split; [done|].
  exists content. apply elem_of_keyword_set.
Qed.

Lemma get_cordis_keywords_list_witness :
  NoDup (elements (keyword_set "soil, water,soil")).
Proof.
  exact (proj1 (get_cordis_keywords_list "101"
                  (always (Responds (Response 200 (keywords_page "soil, water,soil"))))
                  (elements (keyword_set "soil, water,soil")) eq_refl)).
Defined.

Lemma rstrip_prefix (s : string) : exists t, s = PyStr.rstrip s +:+ t.
Proof.
  induction s as [|c s [t IH]]; [by exists ""|]. cbn [PyStr.rstrip].
  destruct (PyStr.rstrip s) as [|d r] eqn:Hr.
  - destruct (PyStr.isspace c); [by exists (String c s)|].
    exists t. change ("" +:+ t) with t in IH.
    by rewrite !ClusterFacts.append_cons, <- IH.
  - exists t. by rewrite ClusterFacts.append_cons, <- IH.
Qed.

Lemma startswith_append (s t p : string) :
  PyStr.startswith s p = true -> PyStr.startswith (s +:+ t) p = true.
Proof.
  intros [r ->]%PyStrFacts.startswith_inv.
  rewrite NumeralFacts.append_assoc. apply PyStrFacts.startswith_app.
Qed.

(** When no piece between the commas begins with white space, the list
    has no empty entry and no entry that begins with "HORIZON". *)
Theorem keyword_set_clean (content : string) :
  (forall piece, piece ∈ PyStr.split "," content -> starts_with_space piece = false) ->
  forall kw, kw ∈ elements (keyword_set content) ->
    kw <> "" /\ PyStr.startswith kw "HORIZON" = false.
Proof.
  intros Hclean kw (piece & Hin & [Hne Hprefix] & ->)%elem_of_keyword_set.
  specialize (Hclean piece Hin).
  destruct piece as [|c r]; [done|]. cbn [starts_with_space] in Hclean.
  unfold PyStr.strip. cbn [PyStr.lstrip]. rewrite Hclean.
  destruct (rstrip_head c r Hclean) as [r' Hr']. split; [by rewrite Hr'|].
  destruct (PyStr.startswith (PyStr.rstrip (String c r)) "HORIZON") eqn:Hs; [|done].
  destruct (rstrip_prefix (String c r)) as [t Ht].
  apply (startswith_append _ t) in Hs. rewrite <- Ht in Hs. congruence.
Qed.

Lemma keyword_set_clean_witness :
  "AI" <> "" /\ PyStr.startswith "AI" "HORIZON" = false.
Proof.
  apply (keyword_set_clean "Health,HORIZON-test,AI ,,Health").
  - intros piece Hin.
    change (PyStr.split "," "Health,HORIZON-test,AI ,,Health")
      with ["Health"; "HORIZON-test"; "AI "; ""; "Health"] in Hin.
    repeat (apply elem_of_cons in Hin as [-> | Hin]; [reflexivity|]).
    by apply elem_of_nil in Hin.
  - apply elem_of_keyword_set. exists "AI ". split; [|by split].
    change (PyStr.split "," "Health,HORIZON-test,AI ,,Health")
      with ["Health"; "HORIZON-test"; "AI "; ""; "Health"].
    right. right. left.
Defined.

(** The list is empty when every piece between the commas is empty or
    begins with "HORIZON", and only then; so it is for an empty content
    and for a content of commas alone. *)
Theorem keyword_set_empty (content : string) :
  elements (keyword_set content) = [] <->
  forall piece, piece ∈ PyStr.split "," content ->
    piece = "" \/ PyStr.startswith piece "HORIZON" = true.
Proof.
  split.
  - intros Hnil piece Hin.
    destruct (decide (piece = "")) as [|Hne]; [by left|]. right.
    destruct (PyStr.startswith piece "HORIZON") eqn:Hp; [done|].
    assert (Hkw : PyStr.strip piece ∈ elements (keyword_set content)).
    { apply elem_of_keyword_set. by exists piece. }
    rewrite Hnil in Hkw. by apply elem_of_nil in Hkw.
  - intros Hall.
    destruct (elements (keyword_set content)) as [|kw l] eqn:Hl; [done|].
    assert (Hkw : kw ∈ elements (keyword_set content)) by (rewrite Hl; left).
    apply elem_of_keyword_set in Hkw as (piece & Hin & [Hne Hp] & _).
    destruct (Hall piece Hin); congruence.
Qed.

Lemma keyword_set_empty_witness :
  elements (keyword_set ",HORIZON-CL4,") = [].
Proof.
  apply (proj2 (keyword_set_empty ",HORIZON-CL4,")). intros piece Hin.
  change (PyStr.split "," ",HORIZON-CL4,") with [""; "HORIZON-CL4"; ""] in Hin.
  repeat (apply elem_of_cons in Hin as [-> | Hin]; [by (left + right)|]).
  by apply elem_of_nil in Hin.
Defined.

End KeywordFacts.

(** ** The argument [--clusters] *)

Module ArgumentFacts.
Import Words.

Lemma cluster_code_step (c : ascii) (clusters : list string) :
  try_except_ValueError
    (n ← int_of_char c;
     if (n <? 1) || (6 <? n) then Raised ValueError
     else mret (clusters ++ ["CL" +:+ PyInt.str n]))
    parser_error
  = if cluster_digit c then Returned (clusters ++ ["CL" +:+ String c ""])
    else Raised (SystemExit 2).
Proof. by destruct c as [[] [] [] [] [] [] [] []]. Qed.

Lemma cluster_codes_digits (arg : string) (clusters : list string) :
  Forall (λ c, cluster_digit c = true) (list_ascii_of_string arg) ->
  cluster_codes arg clusters
  = Returned (clusters ++ ((λ c, "CL" +:+ String c "") <$> list_ascii_of_string arg)).
Proof.
  revert clusters. induction arg as [|c arg IH]; intros clusters Hall.
  - cbn. by rewrite app_nil_r.
  - cbn [list_ascii_of_string] in Hall. apply Forall_cons in Hall as [Hc Hall].
    cbn [cluster_codes]. rewrite cluster_code_step, Hc.
    cbn [mbind result_bind]. rewrite (IH _ Hall).
    cbn [list_ascii_of_string fmap list_fmap]. by rewrite <- app_assoc.
Qed.

Lemma cluster_codes_other (arg : string) (clusters : list string) :
  ~ Forall (λ c, cluster_digit c = true) (list_ascii_of_string arg) ->
  cluster_codes arg clusters = Raised (SystemExit 2).
Proof.
  revert clusters. induction arg as [|c arg IH]; intros clusters Hnot.
  - destruct Hnot. constructor.
  - cbn [cluster_codes]. rewrite cluster_code_step.
    destruct (cluster_digit c) eqn:Hc; [|done].
    cbn [mbind result_bind]. apply IH. intros Hall. apply Hnot.
    cbn [list_ascii_of_string]. by constructor.
Qed.



End ArgumentFacts.

(** ** The pipeline, further *)

Module PipelineMore.
Import Words.

Lemma apply_returned {A B} (f : A -> result B) (l : list A) (l' : list B) :
  apply f l = Returned l' -> Forall2 (λ x y, f x = Returned y) l l'.
Proof.
  revert l'. induction l as [|x l IH]; intros l'; cbn [apply].
  - intros [= <-]. constructor.
  - destruct (f x) as [y|e] eqn:Hx; [|done]. cbn [mbind result_bind].
    destruct (apply f l) as [ys|e]; [|done]. cbn [mbind result_bind].
    intros [= <-]. constructor; [done | by apply IH].
Qed.

Lemma apply_returns {A B} (f : A -> result B) (l : list A) :
  Forall (λ x, returns (f x)) l -> returns (apply f l).
Proof.
  induction 1 as [|x l [y Hy] _ [ys Hys]]; cbn [apply]; [by eexists|].
  rewrite Hy. cbn [mbind result_bind]. rewrite Hys. by eexists.
Qed.

Lemma apply_raised {A B} (f : A -> result B) (l : list A) (x : A) (e : exn) :
  x ∈ l -> f x = Raised e -> (forall y e', f y = Raised e' -> e' = e) ->
  apply f l = Raised e.
Proof.
  intros Hx Hfx Honly. induction l as [|y l IH]; [by apply elem_of_nil in Hx|].
  cbn [apply]. destruct (f y) as [b|e'] eqn:Hy.
  - cbn [mbind result_bind].
    apply elem_of_cons in Hx as [->|Hx]; [congruence|]. by rewrite (IH Hx).
  - cbn [mbind result_bind]. f_equal. by apply (Honly y).
Qed.

Lemma getitem_raised {A} (l : list A) (i : Z) (e : exn) :
  PyStr.getitem l i = Raised e -> e = IndexError.
Proof.
  unfold PyStr.getitem. destruct (_ || _); [by intros [= <-]|].
  destruct (l !! _); [done | by intros [= <-]].
Qed.

Lemma get_cluster_raised (topic : string) (e : exn) :
  get_cluster topic = Raised e -> e = IndexError.
Proof.
  unfold get_cluster.
  destruct (PyStr.startswith topic "HORIZON").
  { destruct (PyStr.getitem _ 1) eqn:H; [done|]. intros [= <-]. by eapply getitem_raised. }
  destruct (PyStr.startswith topic "ERC").
  { destruct (PyStr.getitem _ 2) eqn:H; [done|]. intros [= <-]. by eapply getitem_raised. }
  by destruct (PyStr.startswith topic "EURATOM").
Qed.

Lemma normalize_returned (r r' : Project.row) :
  normalize r = Returned r' ->
  Project.id r' = Project.id r /\ Project.topics r' = Project.topics r /\
  convert_to_float (Project.ecMaxContribution r) = Returned (Project.ecMaxContribution r').
Proof.
  unfold normalize. destruct (convert_to_float _) as [c|e]; [|done].
  by intros [= <-].
Qed.

Lemma convert_to_float_returns (val : pyval) : returns (convert_to_float val).
Proof.
  unfold returns, convert_to_float. destruct (isna val); [by eexists|].
  destruct (NormalizerFacts.float_raises_ValueError
              (PyStr.replace "," "." (py_str val))) as [[f ->]| ->]; by eexists.
Qed.

Lemma normalize_returns (r : Project.row) : returns (normalize r).
Proof.
  unfold normalize.
  destruct (convert_to_float_returns (Project.ecMaxContribution r)) as [c ->].
  by eexists.
Qed.

Lemma classify_returned (r : Project.row) (rc : Project.row * string) :
  classify r = Returned rc -> rc.1 = r /\ get_cluster (Project.topics r) = Returned rc.2.
Proof.
  unfold classify. destruct (get_cluster _) as [c|e]; [|done]. by intros [= <-].
Qed.

Lemma classify_raised (r : Project.row) (e : exn) :
  classify r = Raised e -> e = IndexError.
Proof.
  unfold classify. destruct (get_cluster _) as [c|e'] eqn:H; [done|].
  intros [= <-]. by eapply get_cluster_raised.
Qed.

(** From the project table to the classified rows. *)
Lemma classified_rows (project_df normalized : list Project.row)
    (classified : list (Project.row * string)) :
  apply normalize project_df = Returned normalized ->
  apply classify normalized = Returned classified ->
  Forall2 classified_from project_df classified.
Proof.
  intros Hn%apply_returned Hc%apply_returned. revert classified Hc.
  induction Hn as [|r r' l l' Hr _ IH]; intros classified Hc.
  - inversion Hc. constructor.
  - inversion Hc as [|? rc ? cl Hrc Hcl]; subst. constructor; [|by apply IH].
    destruct (normalize_returned _ _ Hr) as (Hid & Htopics & Hconv).
    destruct (classify_returned _ _ Hrc) as [Hfst Hcluster].
    unfold classified_from. rewrite Hfst. rewrite Htopics in Hcluster. done.
Qed.

Lemma Forall2_elem_of_r {A B} (P : A -> B -> Prop) (l : list A) (k : list B) (y : B) :
  Forall2 P l k -> y ∈ k -> exists x, x ∈ l /\ P x y.
Proof.
  induction 1 as [|x y' l k Hxy _ IH]; [by intros ?%elem_of_nil|].
  intros [->|Hy]%elem_of_cons; [exists x; split; [by left | done]|].
  destruct (IH Hy) as (x' & Hx' & HP). exists x'. split; [by right | done].
Qed.

Lemma Forall2_elem_of_l {A B} (P : A -> B -> Prop) (l : list A) (k : list B) (x : A) :
  Forall2 P l k -> x ∈ l -> exists y, y ∈ k /\ P x y.
Proof.
  induction 1 as [|x' y l k Hxy _ IH]; [by intros ?%elem_of_nil|].
  intros [->|Hx]%elem_of_cons; [exists y; split; [by left | done]|].
  destruct (IH Hx) as (y' & Hy' & HP). exists y'. split; [by right | done].
Qed.

Lemma Forall2_fmap_eq {A B C} (f : A -> C) (g : B -> C) (l : list A) (k : list B) :
  Forall2 (λ x y, g y = f x) l k -> g <$> k = f <$> l.
Proof. induction 1 as [|x y l k Hxy _ IH]; [done|]. cbn. by rewrite Hxy, IH. Qed.

Section Fetch.

Context {W : Type}.
Variable fetch : string -> W -> result keywords * W.

Lemma main_steps (clusters_arg : string) (project_df : list Project.row)
    (euroscivoc_df : list keyword_entry) (w : W) :
  main fetch clusters_arg project_df euroscivoc_df w
  = match parse_clusters clusters_arg with
    | Raised e => (Raised e, w)
    | Returned clusters =>
        match apply normalize project_df with
        | Raised e => (Raised e, w)
        | Returned normalized =>
            match apply classify normalized with
            | Raised e => (Raised e, w)
            | Returned classified =>
                fetch_rows fetch (groupby_projectID euroscivoc_df)
                  (filter_clusters clusters classified) w
            end
        end
    end.
Proof.
  unfold main. destruct (parse_clusters clusters_arg); [|done].
  cbn [mbind result_bind]. destruct (apply normalize project_df); [|done].
  cbn [mbind result_bind]. by destruct (apply classify _).
Qed.

Lemma fetch_rows_returned (groups : gmap string (list string))
    (rows : list (Project.row * string)) (w w' : W) (out : list Extracted.row) :
  fetch_rows fetch groups rows w = (Returned out, w') ->
  Forall2 (local_columns groups) rows out.
Proof.
  revert w w' out. induction rows as [|[r c] rows IH]; intros w w' out; cbn [fetch_rows].
  - intros [= <- _]. constructor.
  - destruct (fetch (Project.id r) w) as [[k|e] w1]; [|done].
    destruct (fetch_rows fetch groups rows w1) as [[out'|e] w2] eqn:Hrest; [|done].
    intros [= <- <-]. constructor; [by unfold local_columns | by eapply IH].
Qed.

(** [inv] holds of the state before and after every call of the
    fetcher. *)
Variable inv : W -> Prop.
Hypothesis inv_fetch : forall project_id w, inv w -> inv (fetch project_id w).2.


Lemma fetch_rows_raises (groups : gmap string (list string))
    (rows : list (Project.row * string)) (rc : Project.row * string) (w : W) :
  rc ∈ rows ->
  (forall w0, inv w0 -> ~ returns (fetch (Project.id rc.1) w0).1) ->
  inv w ->
  ~ returns (fetch_rows fetch groups rows w).1.
Proof.
  intros Hin Hraise. revert w. induction rows as [|[r c] rows IH]; intros w Hw;
    [by apply elem_of_nil in Hin|].
  cbn [fetch_rows].
  pose proof (inv_fetch (Project.id r) w Hw) as Hw1.
  destruct (fetch (Project.id r) w) as [[k|e] w1] eqn:Hk; [|by intros [? [=]]].
  cbn [snd] in Hw1.
  apply elem_of_cons in Hin as [->|Hin].
  - destruct (Hraise w Hw). cbn [fst] in *. rewrite Hk. by eexists.
  - specialize (IH Hin w1 Hw1).
    destruct (fetch_rows fetch groups rows w1) as [[out|e] w2]; [|by intros [? [=]]].
    destruct IH. by eexists.
Qed.

End Fetch.

End PipelineMore.

(** ** A run of the main block *)

Module RunFacts.
Import Words PipelineMore.

Lemma label_is_code (topic : string) (c : ascii) :
  get_cluster topic = Returned (cluster_code c) -> topic = cluster_code c.
Proof.
  unfold get_cluster, cluster_code.
  destruct (PyStr.startswith topic "HORIZON").
  { destruct (PyStr.getitem _ 1) as [seg|]; [|done].
    intros [= H]; try (vm_compute in H; discriminate H). }
  destruct (PyStr.startswith topic "ERC").
  { destruct (PyStr.getitem _ 2) as [seg|]; [|done].
    intros [= H]; try (vm_compute in H; discriminate H). }
  destruct (PyStr.startswith topic "EURATOM").
  { intros [= H]; try (vm_compute in H; discriminate H). }
  by intros [= ->].
Qed.

Lemma parse_clusters_codes (arg : string) (codes : list string) :
  parse_clusters arg = Returned (Clusters codes) ->
  codes = cluster_code <$> list_ascii_of_string arg /\
  Forall (λ c, cluster_digit c = true) (list_ascii_of_string arg).
Proof.
  unfold parse_clusters. case_bool_decide; [done|].
  destruct (Forall_dec (λ c, cluster_digit c = true) (list_ascii_of_string arg))
    as [Hall|Hnot].
  - rewrite (ArgumentFacts.cluster_codes_digits arg [] Hall).
    cbn [mbind result_bind mret result_ret]. by intros [= <-].
  - by rewrite (ArgumentFacts.cluster_codes_other arg [] Hnot).
Qed.

Section Run.

Context {W : Type}.
Variable fetch : string -> W -> result keywords * W.

(** An argument of [--clusters] that is neither "all" nor made of the
    digits 1 to 6 ends the run with the exit status 2 before a table is
    looked at and before any lookup: the state is as it was, whatever the
    tables hold. *)
Theorem main_bad_argument (clusters_arg : string) (project_df : list Project.row)
    (euroscivoc_df : list keyword_entry) (w : W) :
  clusters_arg <> "all" ->
  ~ Forall (λ c, cluster_digit c = true) (list_ascii_of_string clusters_arg) ->
  main fetch clusters_arg project_df euroscivoc_df w = (Raised (SystemExit 2), w).
Proof.
  intros Harg Hnot. rewrite main_steps. unfold parse_clusters.
  rewrite bool_decide_eq_false_2 by done.
  by rewrite (ArgumentFacts.cluster_codes_other clusters_arg [] Hnot).
Qed.

(** One project whose topic has the prefix "HORIZON" and fewer than two
    segments, or the prefix "ERC" and fewer than three, ends the run with
    [IndexError] before any lookup, whatever the filter is: the rows are
    classified before they are filtered. *)
Theorem main_short_topic (clusters_arg : string) (project_df : list Project.row)
    (euroscivoc_df : list keyword_entry) (w : W) (r : Project.row) :
  returns (parse_clusters clusters_arg) ->
  r ∈ project_df ->
  too_short (Project.topics r) = true ->
  main fetch clusters_arg project_df euroscivoc_df w = (Raised IndexError, w).
Proof.
  intros [clusters Hparse] Hr Hshort. rewrite main_steps, Hparse.
  destruct (apply_returns normalize project_df) as [normalized Hn].
  { apply Forall_forall. intros. apply normalize_returns. }
  rewrite Hn.
  destruct (Forall2_elem_of_l _ _ _ r (apply_returned _ _ _ Hn) Hr) as (r' & Hr' & Hnr).
  destruct (normalize_returned _ _ Hnr) as (_ & Htopics & _).
  rewrite (apply_raised classify normalized r' IndexError Hr').
  - done.
  - unfold classify. rewrite Htopics.
    by rewrite (ClusterFacts.too_short_raises _ Hshort).
  - apply classify_raised.
Qed.

(** Every row of the output comes from a row of the project table: it
    has its identifier and its topic, its contribution as the normaliser
    returns it, the label that the classifier returns for its topic, and
    the local keywords of its identifier, or no value when the keyword
    table has no entry for it. *)
Theorem main_rows (clusters_arg : string) (project_df : list Project.row)
    (euroscivoc_df : list keyword_entry) (w w' : W) (out : list Extracted.row) :
  main fetch clusters_arg project_df euroscivoc_df w = (Returned out, w') ->
  forall o, o ∈ out ->
    exists r, r ∈ project_df /\
      Extracted.id o = Project.id r /\
      Extracted.topics o = Project.topics r /\
      convert_to_float (Project.ecMaxContribution r)
      = Returned (Extracted.ecMaxContribution o) /\
      get_cluster (Project.topics r) = Returned (Extracted.cluster o) /\
      Extracted.euroscivoc_keywords o
      = match get_euroscivoc_keywords (Project.id r) euroscivoc_df with
        | [] => None
        | l => Some l
        end.
Proof.
  rewrite main_steps.
  destruct (parse_clusters clusters_arg) as [clusters|]; [|done].
  destruct (apply normalize project_df) as [normalized|] eqn:Hn; [|done].
  destruct (apply classify normalized) as [classified|] eqn:Hc; [|done].
  intros Hrows%fetch_rows_returned o Ho.
  destruct (Forall2_elem_of_r _ _ _ o Hrows Ho) as (rc & Hrc & Hid & Htopics & Hec & Hcl & Hkw).
  assert (Hin : rc ∈ classified).
  { destruct clusters; [done|]. cbn [filter_clusters] in Hrc.
    by apply list_elem_of_filter in Hrc as [_ ?]. }
  destruct (Forall2_elem_of_r _ _ _ rc (classified_rows _ _ _ Hn Hc) Hin)
    as (r & Hr & Hid' & Htopics' & Hconv & Hlabel).
  exists r. split; [done|].
  rewrite Hid, Htopics, Hec, Hcl, Hkw, Hid', Htopics'.
  by rewrite AggregatorFacts.groupby_lookup.
Qed.

(** Without a filter the output has one row for each row of the project
    table, in the same order. *)
Theorem main_all (project_df : list Project.row)
    (euroscivoc_df : list keyword_entry) (w w' : W) (out : list Extracted.row) :
  main fetch "all" project_df euroscivoc_df w = (Returned out, w') ->
  Extracted.id <$> out = Project.id <$> project_df /\
  Extracted.topics <$> out = Project.topics <$> project_df.
Proof.
  rewrite main_steps. cbn [parse_clusters].
  change (parse_clusters "all") with (Returned AllClusters).
  destruct (apply normalize project_df) as [normalized|] eqn:Hn; [|done].
  destruct (apply classify normalized) as [classified|] eqn:Hc; [|done].
  cbn [filter_clusters]. intros Hrows%fetch_rows_returned.
  pose proof (classified_rows _ _ _ Hn Hc) as Hcl.
  split.
  - rewrite (Forall2_fmap_eq (Project.id ∘ fst) Extracted.id classified out).
    + apply (Forall2_fmap_eq Project.id (Project.id ∘ fst)).
      eapply Forall2_impl; [exact Hcl|]. by intros r rc (? & _).
    + eapply Forall2_impl; [exact Hrows|]. by intros rc o (? & _).
  - rewrite (Forall2_fmap_eq (Project.topics ∘ fst) Extracted.topics classified out).
    + apply (Forall2_fmap_eq Project.topics (Project.topics ∘ fst)).
      eapply Forall2_impl; [exact Hcl|]. by intros r rc (_ & ? & _).
    + eapply Forall2_impl; [exact Hrows|]. by intros rc o (_ & ? & _).
Qed.

(** With a filter made of digits, a row is in the output only when its
    label is one of the codes "CL1" to "CL6" of the argument; and a label
    is such a code only when the topic itself is that code, so a row whose
    topic is an identifier with the prefix "HORIZON", "ERC" or "EURATOM" is
    never in the output. *)
Theorem main_filtered (clusters_arg : string) (project_df : list Project.row)
    (euroscivoc_df : list keyword_entry) (w w' : W) (out : list Extracted.row) :
  clusters_arg <> "all" ->
  main fetch clusters_arg project_df euroscivoc_df w = (Returned out, w') ->
  forall o, o ∈ out ->
    (exists c, c ∈ list_ascii_of_string clusters_arg /\ cluster_digit c = true /\
               Extracted.cluster o = cluster_code c) /\
    Extracted.topics o = Extracted.cluster o.
Proof.
  intros Harg. rewrite main_steps.
  destruct (parse_clusters clusters_arg) as [clusters|] eqn:Hparse; [|done].
  destruct clusters as [|codes].
  { unfold parse_clusters in Hparse. rewrite bool_decide_eq_false_2 in Hparse by done.
    by destruct (cluster_codes clusters_arg []). }
  destruct (parse_clusters_codes _ _ Hparse) as [-> Hdigits].
  destruct (apply normalize project_df) as [normalized|] eqn:Hn; [|done].
  destruct (apply classify normalized) as [classified|] eqn:Hc; [|done].
  intros Hrows%fetch_rows_returned o Ho.
  destruct (Forall2_elem_of_r _ _ _ o Hrows Ho) as (rc & Hrc & _ & Htopics & _ & Hcl & _).
  cbn [filter_clusters] in Hrc.
  apply list_elem_of_filter in Hrc as [Hcode Hin].
  apply list_elem_of_fmap in Hcode as (c & Hlabel & Hc_in).
  destruct (Forall2_elem_of_r _ _ _ rc (classified_rows _ _ _ Hn Hc) Hin)
    as (r & _ & _ & Htopics' & _ & Hget).
  split.
  - exists c. split; [done|]. split; [|congruence].
    by apply (proj1 (Forall_forall _ _) Hdigits).
  - rewrite Hlabel in Hget. apply label_is_code in Hget. congruence.
Qed.

End Run.

Lemma main_bad_argument_witness :
  main (stub_fetch ["Adaptation"]) "1a"
    [Project.Row "P1" "HORIZON" (PStr "1,5")] [KeywordEntry "P1" "Climate"] tt
  = (Raised (SystemExit 2), tt).
Proof.
  apply (main_bad_argument (stub_fetch ["Adaptation"]) "1a"); [done|].
  intros Hall. apply Forall_cons in Hall as [_ Hall].
  apply Forall_cons in Hall as [Ha _]. discriminate Ha.
Defined.

Lemma main_short_topic_witness :
  main (stub_fetch ["Adaptation"]) "2"
    [Project.Row "P1" "HORIZON-CL1-01" (PStr "1,5"); Project.Row "P2" "ERC-2021" PNone]
    [KeywordEntry "P1" "Climate"] tt
  = (Raised IndexError, tt).
Proof.
  apply (main_short_topic (stub_fetch ["Adaptation"]) "2" _ _ tt
           (Project.Row "P2" "ERC-2021" PNone)).
  - by eexists.
  - right. left.
  - reflexivity.
Defined.

Lemma main_rows_witness :
  exists r,
    r ∈ [Project.Row "P1" "HORIZON-CL1-01" (PStr "1,5"); Project.Row "P2" "H2020" PNone] /\
    "P2" = Project.id r /\ "H2020" = Project.topics r /\
    convert_to_float (Project.ecMaxContribution r) = Returned PNone /\
    get_cluster (Project.topics r) = Returned "H2020" /\
    None = match get_euroscivoc_keywords (Project.id r) [KeywordEntry "P1" "Climate"] with
           | [] => None
           | l => Some l
           end.
Proof.
  apply (main_rows (stub_fetch ["Adaptation"]) "all"
           [Project.Row "P1" "HORIZON-CL1-01" (PStr "1,5"); Project.Row "P2" "H2020" PNone]
           [KeywordEntry "P1" "Climate"] tt tt _ eq_refl
           (Extracted.Row "P2" "H2020" PNone "H2020" None (KeywordList ["Adaptation"]))).
  right. left.
Defined.

Lemma main_all_witness :
  ["P1"; "P2"] = ["P1"; "P2"] /\ ["HORIZON-CL1-01"; "H2020"] = ["HORIZON-CL1-01"; "H2020"].
Proof.
  exact (main_all (stub_fetch ["Adaptation"])
           [Project.Row "P1" "HORIZON-CL1-01" (PStr "1,5"); Project.Row "P2" "H2020" PNone]
           [KeywordEntry "P1" "Climate"] tt tt _ eq_refl).
Defined.

Lemma main_filtered_witness :
  (exists c, c ∈ list_ascii_of_string "21" /\ cluster_digit c = true /\
             "CL1" = cluster_code c) /\
  "CL1" = "CL1".
Proof.
  assert (Harg : "21" <> "all") by done.
  apply (main_filtered (stub_fetch ["Adaptation"]) "21"
           [Project.Row "P1" "HORIZON-CL1-01" (PStr "1,5"); Project.Row "P2" "CL1" PNone]
           [KeywordEntry "P1" "Climate"] tt tt
           [Extracted.Row "P2" "CL1" PNone "CL1" None (KeywordList ["Adaptation"])]
           Harg eq_refl
           (Extracted.Row "P2" "CL1" PNone "CL1" None (KeywordList ["Adaptation"]))).
  left.
Defined.

(** The state of the lookups: the network answers as [w] does. *)
Lemma fetch_keeps_endpoint (w : world) (project_id : string) (w0 : world) :
  endpoint w0 = endpoint w -> endpoint (get_cordis_keywords project_id w0).2 = endpoint w.
Proof.
  intros H. destruct (FetcherMore.fetch_world project_id w0) as (k & _ & ->). done.
Qed.




(** One project for which every request meets an [ok] response whose
    first keywords element has no content ends a run without filter with
    an exception: no table is returned, whatever the other projects
    meet. *)
Theorem main_KeyError (project_df : list Project.row)
    (euroscivoc_df : list keyword_entry) (w : world)
    (r : Project.row) (res : response) (keywords_soup : tag) :
  r ∈ project_df ->
  (forall i, endpoint w (cordis_url (Project.id r)) i = Responds res) ->
  ok res = true ->
  find (text res) "meta" "name" "keywords" = Some keywords_soup ->
  attrs keywords_soup !! "content" = None ->
  ~ returns (main get_cordis_keywords "all" project_df euroscivoc_df w).1.
Proof.
  intros Hr Hres Hok Hfind Hcontent. rewrite main_steps.
  change (parse_clusters "all") with (Returned AllClusters).
  destruct (apply normalize project_df) as [normalized|] eqn:Hn; [|by intros [? [=]]].
  destruct (apply classify normalized) as [classified|] eqn:Hc; [|by intros [? [=]]].
  cbn [filter_clusters].
  destruct (Forall2_elem_of_l _ _ _ r (classified_rows _ _ _ Hn Hc) Hr)
    as (rc & Hrc & Hid & _).
  apply (fetch_rows_raises get_cordis_keywords (λ w0, endpoint w0 = endpoint w)
           (fetch_keeps_endpoint w) _ _ rc); [done| |done].
  intros w0 Hw0. rewrite Hid.
  assert (Hfirst : nth_response w0 (cordis_url (Project.id r)) 0 = res).
  { unfold nth_response. by rewrite Hw0, Hres. }
  rewrite FetcherFacts.fetch_first by (by rewrite Hfirst).
  cbn [fst]. rewrite Hfirst.
  rewrite (FetcherFacts.read_keywords_no_content _ _ Hok Hfind Hcontent).
  by intros [? [=]].
Qed.

Lemma main_KeyError_witness :
  ~ returns (main get_cordis_keywords "all"
               [Project.Row "P1" "HORIZON-CL1-01" (PStr "1,5");
                Project.Row "P2" "H2020" PNone]
               [KeywordEntry "P1" "Climate"]
               (always (Responds (Response 200 [Tag "meta" {["name" := "keywords"]}])))).1.
Proof.
  apply (main_KeyError _ _ _ (Project.Row "P2" "H2020" PNone)
           (Response 200 [Tag "meta" {["name" := "keywords"]}])
           (Tag "meta" {["name" := "keywords"]})); try reflexivity.
  right. left.
Defined.

End RunFacts.
